(** * The versioned resource store and the integration router

    A shallow embedding of [shared/base_service.py] (the generic FHIR
    resource store, its query engine, event publisher and capability
    statement) and of [services/integration-engine/app/main.py] (the
    message router), followed by the properties of the two that the
    design document states.

    Conventions.
    - A Python [str] is held as its UTF-8 encoding, one [ascii] for each
      byte; its length and the one character a LIKE pattern's [_]
      stands for are counted in characters, not bytes.
    - A Python [dict] holding JSON is an association list read with
      [dict_get] and written with [dict_set]; both work on the first
      binding of a key, so the laws of a dictionary hold of every list.
    - What a call draws from outside (a fresh UUID, the clock) is an
      explicit input of the call.
    - A function that can raise returns a [result]; a function that also
      changes state returns the new state paired with the [result].
    - The database is the table [fhir_resources] as a list of rows in
      insertion order. Its primary key on [id] and the width of that
      column, [String(64)], are enforced at INSERT; LIMIT and OFFSET are
      the server's [bigint]. *)

From Stdlib Require Import ZArith String Ascii List Bool Lia.
From Stdlib Require Import Decimal DecimalString DecimalPos DecimalZ.
From stdpp Require Import base list gmap strings.

Set Warnings "-register-all".
Open Scope string_scope.

(* ================================================================== *)
(** * Python values *)
(* ================================================================== *)

Module Py.

(** A JSON value as [json.loads] and [request.json()] deliver it.
    Numbers are the integers. *)
Inductive json : Type :=
| JNull
| JBool (b : bool)
| JNum (n : Z)
| JStr (s : string)
| JArr (xs : list json)
| JObj (kvs : list (string * json)).

(** A Python [dict] with string keys. *)
Definition dict : Type := list (string * json).

(** Exceptions that the embedded code raises or lets through. *)
Inductive exn : Type :=
| HTTPException (status_code : Z) (detail : string)
| IntegrityError            (* primary key violated at commit *)
| DBAPIError                (* the driver or the server rejects a statement *)
| DataError                 (* the server rejects a value: too long for its
                               column, or out of range *)
| ValueError (text : string)
| AttributeError (text : string)
| TypeError (text : string)
| AMQPError (text : string) (* a broker call fails *)
| RedisError (text : string)
| OSError (text : string).  (* [print] fails *)

Inductive result (A : Type) : Type :=
| Ok (a : A)
| Raise (e : exn).
Arguments Ok {A} a.
Arguments Raise {A} e.

(** [d.get(k)]: [None] when the key is missing. *)
Fixpoint dict_get (k : string) (d : dict) : option json :=
  match d with
  | [] => None
  | (k', v) :: d' => if String.eqb k k' then Some v else dict_get k d'
  end.

(** [d.get(k)] as a Python value: a missing key reads as [None]. *)
Definition dict_get_value (k : string) (d : dict) : json :=
  match dict_get k d with
  | Some v => v
  | None => JNull
  end.

(** [d[k] = v]: an existing key keeps its place, a new key goes last. *)
Fixpoint dict_set (k : string) (v : json) (d : dict) : dict :=
  match d with
  | [] => [(k, v)]
  | (k', v') :: d' =>
      if String.eqb k k' then (k', v) :: d' else (k', v') :: dict_set k v d'
  end.

(** [k in d]. *)
Definition dict_has (k : string) (d : dict) : bool :=
  match dict_get k d with
  | Some _ => true
  | None => false
  end.

(** Truth value of a Python object, as [or], [not] and [if] test it. *)
Definition truthy (v : json) : bool :=
  match v with
  | JNull => false
  | JBool b => b
  | JNum n => negb (n =? 0)%Z
  | JStr s => negb (String.eqb s "")
  | JArr xs => match xs with [] => false | _ => true end
  | JObj kvs => match kvs with [] => false | _ => true end
  end.

(** [type(v).__name__]. *)
Definition type_name (v : json) : string :=
  match v with
  | JNull => "NoneType"
  | JBool _ => "bool"
  | JNum _ => "int"
  | JStr _ => "str"
  | JArr _ => "list"
  | JObj _ => "dict"
  end.

(** [str(n)] for an integer. *)
Definition str_of_int (n : Z) : string :=
  NilZero.string_of_int (Z.to_int n).

(** [int(s)] for a string: [None] stands for [ValueError]. Decimal
    numerals with an optional minus sign are read; the version column,
    the one place [int] is applied to, only ever holds such numerals. *)
Definition int_of_str (s : string) : option Z :=
  option_map Z.of_int (NilZero.int_of_string s).

Definition lower_ascii (c : ascii) : ascii :=
  let n := nat_of_ascii c in
  if ((65 <=? n) && (n <=? 90))%nat then ascii_of_nat (n + 32) else c.

Definition upper_ascii (c : ascii) : ascii :=
  let n := nat_of_ascii c in
  if ((97 <=? n) && (n <=? 122))%nat then ascii_of_nat (n - 32) else c.

Fixpoint map_string (f : ascii -> ascii) (s : string) : string :=
  match s with
  | EmptyString => EmptyString
  | String c s' => String (f c) (map_string f s')
  end.

(** [s.lower()] and [s.upper()]: the letters A to Z and a to z change
    case, every other character is kept as it is. *)
Definition lower (s : string) : string := map_string lower_ascii s.
Definition upper (s : string) : string := map_string upper_ascii s.

(** In UTF-8 a byte from 128 to 191 continues a character; every other
    byte starts one. *)
Definition continues_char (c : ascii) : bool :=
  let n := nat_of_ascii c in ((128 <=? n) && (n <=? 191))%nat.

(** [len(s)]: the number of characters of a string. *)
Fixpoint len (s : string) : nat :=
  match s with
  | EmptyString => 0
  | String c s' => if continues_char c then len s' else S (len s')
  end.

(** [s.split(sep)] for a one-character separator: never empty, an empty
    segment for every separator at an end or next to another one. *)
Fixpoint split (sep : ascii) (s : string) : list string :=
  match s with
  | EmptyString => [EmptyString]
  | String c s' =>
      if Ascii.eqb c sep then EmptyString :: split sep s'
      else match split sep s' with
           | [] => [String c EmptyString]
           | seg :: segs => String c seg :: segs
           end
  end.

End Py.
Import Py.

(* ================================================================== *)
(** * The SQL expressions the query engine builds *)
(* ================================================================== *)

Module Sql.

Section Jsonb.

(** The text PostgreSQL prints for a jsonb array or object. *)
Variable container_text : json -> string.

(** [v -> 'k']: the member of an object, NULL for anything else. *)
Definition arrow (v : option json) (k : string) : option json :=
  match v with
  | Some (JObj kvs) => dict_get k kvs
  | _ => None
  end.

(** The text of a jsonb value as [->>] yields it: NULL for JSON null. *)
Definition text_of (v : json) : option string :=
  match v with
  | JNull => None
  | JBool true => Some "true"
  | JBool false => Some "false"
  | JNum n => Some (str_of_int n)
  | JStr s => Some s
  | JArr _ | JObj _ => Some (container_text v)
  end.

(** [v ->> 'k'], which is what [.astext] turns the last [->] into. *)
Definition arrow_text (v : option json) (k : string) : option string :=
  match arrow v k with
  | Some x => text_of x
  | None => None
  end.

(** [a = b] on text, NULL when an operand is NULL. *)
Definition text_eq (a : option string) (b : string) : option bool :=
  match a with
  | Some s => Some (String.eqb s b)
  | None => None
  end.

End Jsonb.

(** What is left of the text once the bytes that continue a character
    are passed. *)
Fixpoint rest_of_char (s : list ascii) : list ascii :=
  match s with
  | [] => []
  | c :: s' => if continues_char c then rest_of_char s' else s
  end.

(** [s LIKE p] with the default escape character: [%] stands for any
    run of characters, [_] for any one character, a backslash makes the
    character after it literal. *)
Fixpoint like (p : list ascii) : list ascii -> bool :=
  match p with
  | [] => fun s => match s with [] => true | _ => false end
  | c :: p' =>
      if Ascii.eqb c "%" then
        fix any (s : list ascii) : bool :=
          like p' s || match s with [] => false | _ :: s' => any s' end
      else if Ascii.eqb c "_" then
        fun s => match s with
                 | [] => false
                 | x :: s' =>
                     negb (continues_char x) && like p' (rest_of_char s')
                 end
      else if Ascii.eqb c "\" then
        match p' with
        | [] => fun _ => false
        | e :: p'' =>
            fun s => match s with
                     | [] => false
                     | x :: s' => Ascii.eqb x e && like p'' s'
                     end
        end
      else
        fun s => match s with
                 | [] => false
                 | x :: s' => Ascii.eqb x c && like p' s'
                 end
  end.

(** [col.contains(value)] on a text column: [col LIKE '%' || value || '%'],
    NULL when the column is NULL. The value is not escaped. *)
Definition text_contains (a : option string) (value : string) : option bool :=
  match a with
  | Some s =>
      Some (like (list_ascii_of_string ("%" ++ value ++ "%"))
                 (list_ascii_of_string s))
  | None => None
  end.

Definition is_scalar (v : json) : bool :=
  match v with
  | JArr _ | JObj _ => false
  | _ => true
  end.

(** Equality of two jsonb scalars. *)
Definition scalar_eqb (a b : json) : bool :=
  match a, b with
  | JNull, JNull => true
  | JBool x, JBool y => Bool.eqb x y
  | JNum x, JNum y => (x =? y)%Z
  | JStr x, JStr y => String.eqb x y
  | _, _ => false
  end.

(** [a @> b] for a pattern [b] that is an array or an object: every
    element of a pattern array is matched by some element of [a] (a
    scalar by an equal scalar, a container by a container of the same
    kind that contains it), every member of a pattern object is matched
    by the member of [a] under the same key. *)
Fixpoint deep_contains (a b : json) {struct b} : bool :=
  match b with
  | JArr bs =>
      match a with
      | JArr xs =>
          forallb (fun y =>
                     if is_scalar y then existsb (fun x => scalar_eqb x y) xs
                     else existsb (fun x => deep_contains x y) xs) bs
      | _ => false
      end
  | JObj kvs =>
      match a with
      | JObj m =>
          forallb (fun kv =>
                     match dict_get (fst kv) m with
                     | Some x =>
                         if is_scalar (snd kv) then scalar_eqb x (snd kv)
                         else deep_contains x (snd kv)
                     | None => false
                     end) kvs
      | _ => false
      end
  | _ => false
  end.

(** [a @> b]: NULL when [a] is NULL. At the top an array also contains
    a scalar that is one of its elements. *)
Definition jsonb_contains (a : option json) (b : json) : option bool :=
  match a with
  | None => None
  | Some x =>
      Some (if is_scalar b then
              match x with
              | JArr xs => existsb (fun e => scalar_eqb e b) xs
              | JObj _ => false
              | _ => scalar_eqb x b
              end
            else deep_contains x b)
  end.

(** A WHERE clause keeps the rows on which it is true. *)
Definition holds (c : option bool) : bool :=
  match c with
  | Some true => true
  | _ => false
  end.

End Sql.

(* ================================================================== *)
(** * shared/base_service.py *)
(* ================================================================== *)

Module Store.

(** A row of [FHIRResourceStore]. *)
Record row : Type := mk_row {
  id : string;
  resource_type : string;
  version_id : string;
  data : dict;
  created_at : string;
  updated_at : string
}.

(** The table [fhir_resources], oldest row first. *)
Definition table : Type := list row.

(** What one store call reads from outside: the UUID [uuid.uuid4()] would
    return, [datetime.utcnow().isoformat()] for the document, and the
    clock reading the column defaults take. *)
Record store_env : Type := mk_store_env {
  uuid4 : string;
  utcnow : string;
  column_now : string
}.

(** What one [publish_event] call reads from outside. *)
Record event_env : Type := mk_event_env {
  event_uuid4 : string;
  event_utcnow : string
}.

(** The open channel to the broker: whether calls on it get through, and
    the messages the exchange [healthcare.events] took, oldest first. *)
Record channel : Type := mk_channel {
  broker_reachable : bool;
  published : list (string * dict)
}.

(** The configuration of a [FHIRService]. Its [rabbitmq_channel], which
    [setup] leaves at [None] when the broker cannot be reached, is state
    and is passed to the method that reads it. *)
Record service : Type := mk_service {
  service_name : string;
  supported_resources : list string
}.

(** [x in xs] for a list of strings. *)
Definition str_in (x : string) (xs : list string) : bool :=
  existsb (String.eqb x) xs.

(** The rows [filter(resource_type == rt, id == rid)] selects. *)
Definition is_resource (rt rid : string) (r : row) : bool :=
  String.eqb (resource_type r) rt && String.eqb (id r) rid.

(** [query.first()]. *)
Definition first_row (rt rid : string) (tbl : table) : option row :=
  List.find (is_resource rt rid) tbl.

Definition not_found (rt rid : string) : exn :=
  HTTPException 404 (rt ++ "/" ++ rid ++ " not found").

Definition meta_of (version : string) (now : string) : json :=
  JObj [("versionId", JStr version); ("lastUpdated", JStr (now ++ "Z"))].

Section Driver.

(** How the database driver and server take a number or a boolean for
    the VARCHAR column [id]: the text the server casts it to, or [None]
    when the statement is rejected. A string is sent as it is. *)
Variable adapt_value : json -> option string.

(** The text PostgreSQL prints for a jsonb array or object. *)
Variable container_text : json -> string.

(** [str(v)] of a list or a dict, as an f-string renders it. *)
Variable repr_container : json -> string.

(** [String(64)]: the text a VARCHAR(64) column takes, at most 64
    characters. *)
Definition fits_varchar (s : string) : bool :=
  (len s <=? 64)%nat.

(** The key the INSERT stores for the id the document carries, or [None]
    when the flush fails. A list or a dict never reaches the server: the
    session looks the new identity up in its identity map, and the value
    cannot be hashed. *)
Definition bind_varchar (v : json) : option string :=
  match v with
  | JStr s => if fits_varchar s then Some s else None
  | JArr _ | JObj _ => None
  | _ =>
      match adapt_value v with
      | Some s => if fits_varchar s then Some s else None
      | None => None
      end
  end.

(** What the flush raises when [bind_varchar] stores nothing. *)
Definition bind_error (v : json) : exn :=
  match v with
  | JStr _ => DataError
  | JArr _ | JObj _ => TypeError ("unhashable type: '" ++ type_name v ++ "'")
  | _ =>
      match adapt_value v with
      | Some _ => DataError
      | None => DBAPIError
      end
  end.

(** An f-string field [{v}]. *)
Definition format_value (v : json) : string :=
  match v with
  | JNull => "None"
  | JBool true => "True"
  | JBool false => "False"
  | JNum n => str_of_int n
  | JStr s => s
  | JArr _ | JObj _ => repr_container v
  end.

(** [FHIRService.create_resource]. *)
Definition create_resource (svc : service) (env : store_env)
    (rtype : string) (data : dict) (tbl : table)
  : table * result dict :=
  if negb (str_in rtype (supported_resources svc)) then
    (tbl, Raise (HTTPException 400
                   ("Resource type " ++ rtype ++ " not supported")))
  else
    let resource_id :=
      match dict_get "id" data with
      | Some v => if truthy v then v else JStr (uuid4 env)
      | None => JStr (uuid4 env)
      end in
    let version_id := "1" in
    let data := dict_set "id" resource_id data in
    let data := dict_set "resourceType" (JStr rtype) data in
    let data := dict_set "meta" (meta_of version_id (utcnow env)) data in
    match bind_varchar resource_id with
    | None => (tbl, Raise (bind_error resource_id))
    | Some key =>
        if existsb (fun r => String.eqb (id r) key) tbl then
          (tbl, Raise IntegrityError)
        else
          ((tbl ++ [mk_row key rtype version_id data
                          (column_now env) (column_now env)])%list,
           Ok data)
    end.

(** [FHIRService.read_resource]. *)
Definition read_resource (rtype rid : string) (tbl : table)
  : result dict :=
  match first_row rtype rid tbl with
  | None => Raise (not_found rtype rid)
  | Some resource => Ok (data resource)
  end.

(** The UPDATE the session flushes for a changed row: by primary key. *)
Definition flush_update (key : string) (new_data : dict)
    (new_version : string) (now : string) (tbl : table) : table :=
  map (fun r =>
         if String.eqb (id r) key then
           mk_row (id r) (resource_type r) new_version new_data
                  (created_at r) now
         else r) tbl.

(** [FHIRService.update_resource]. *)
Definition update_resource (env : store_env)
    (rtype rid : string) (data : dict) (tbl : table)
  : table * result dict :=
  match first_row rtype rid tbl with
  | None => (tbl, Raise (not_found rtype rid))
  | Some resource =>
      match int_of_str (version_id resource) with
      | None => (tbl, Raise (ValueError (version_id resource)))
      | Some n =>
          let new_version := str_of_int (n + 1) in
          let data := dict_set "id" (JStr rid) data in
          let data := dict_set "resourceType" (JStr rtype) data in
          let data := dict_set "meta" (meta_of new_version (utcnow env)) data in
          (flush_update (id resource) data new_version (column_now env) tbl,
           Ok data)
      end
  end.

(** [FHIRService.delete_resource]. *)
Definition delete_resource (rtype rid : string) (tbl : table)
  : table * result unit :=
  match first_row rtype rid tbl with
  | None => (tbl, Raise (not_found rtype rid))
  | Some resource =>
      (List.filter (fun r => negb (String.eqb (id r) (id resource))) tbl,
       Ok tt)
  end.

(** The reference column [data -> 'subject' ->> 'reference']. *)
Definition subject_reference (r : row) : option string :=
  Sql.arrow_text container_text
    (Sql.arrow (Some (JObj (data r))) "subject") "reference".

(** One turn of the loop over [params.items()]: the query with the
    filter of this parameter added, or the query as it was. *)
Definition add_filter (query : list row) (param : string * option string)
  : list row :=
  let key := fst param in
  if String.prefix "_" key then query
  else
    match snd param with
    | None => query
    | Some value =>
        if String.eqb key "patient" then
          List.filter (fun r =>
            Sql.holds (Sql.text_eq (subject_reference r)
                         ("Patient/" ++ value))) query
        else if String.eqb key "subject" then
          List.filter (fun r =>
            Sql.holds (Sql.text_contains (subject_reference r) value)) query
        else if String.eqb key "status" then
          List.filter (fun r =>
            Sql.holds (Sql.text_eq
                         (Sql.arrow_text container_text
                            (Some (JObj (data r))) "status")
                         value)) query
        else if String.eqb key "identifier" then
          List.filter (fun r =>
            Sql.holds (Sql.jsonb_contains
                         (Sql.arrow (Some (JObj (data r))) "identifier")
                         (JArr [JObj [("value", JStr value)]]))) query
        else if String.eqb key "category" then
          List.filter (fun r =>
            Sql.holds (Sql.jsonb_contains
                         (Sql.arrow (Some (JObj (data r))) "category")
                         (JArr [JObj [("coding",
                                       JArr [JObj [("code", JStr value)]])]])))
            query
        else if String.eqb key "code" then
          List.filter (fun r =>
            Sql.holds (Sql.jsonb_contains
                         (Sql.arrow
                            (Sql.arrow (Some (JObj (data r))) "code")
                            "coding")
                         (JArr [JObj [("code", JStr value)]]))) query
        else query
    end.

(** The query after the loop: rows of the type, every filter applied. *)
Definition build_query (rtype : string)
    (params : list (string * option string)) (tbl : table) : list row :=
  fold_left add_filter params
    (List.filter (fun r => String.eqb (resource_type r) rtype)
       tbl).

(** The largest [bigint], the type of LIMIT and OFFSET: 2^63 - 1. *)
Definition bigint_max : Z := 9223372036854775807.

(** [query.offset(offset).limit(limit).all()]: the server rejects a
    negative OFFSET or LIMIT, and one that is no [bigint]. *)
Definition page (offset limit : Z) (query : list row) : result (list row) :=
  if ((offset <? 0) || (limit <? 0)
      || (bigint_max <? offset) || (bigint_max <? limit))%Z
  then Raise DataError
  else Ok (take (Z.to_nat limit) (drop (Z.to_nat offset) query)).

Definition bundle_entry (rtype : string) (r : row) : json :=
  JObj [("fullUrl", JStr (rtype ++ "/" ++ id r));
        ("resource", JObj (data r))].

(** [FHIRService.search_resources]. *)
Definition search_resources (rtype : string)
    (params : list (string * option string)) (limit offset : Z)
    (tbl : table) : result dict :=
  let query := build_query rtype params tbl in
  let total := Z.of_nat (length query) in
  match page offset limit query with
  | Raise e => Raise e
  | Ok resources =>
      Ok [("resourceType", JStr "Bundle");
          ("type", JStr "searchset");
          ("total", JNum total);
          ("link", JArr [JObj [("relation", JStr "self");
                               ("url", JStr ("/fhir/r4/" ++ rtype))]]);
          ("entry", JArr (map (bundle_entry rtype) resources))]
  end.

(** [FHIRService.publish_event]: the channel afterwards and the outcome.
    A call on the channel that does not get through raises; nothing in
    this method catches it. *)
Definition publish_event (svc : service) (env : event_env)
    (event_type : string) (resource : dict)
    (rabbitmq_channel : option channel) : option channel * result unit :=
  match rabbitmq_channel with
  | None => (None, Ok tt)
  | Some ch =>
      let event : dict :=
        [("specversion", JStr "1.0");
         ("type", JStr ("org.hl7.fhir.r4."
                        ++ format_value (dict_get_value "resourceType" resource)
                        ++ "." ++ event_type));
         ("source", JStr ("/" ++ service_name svc));
         ("id", JStr (event_uuid4 env));
         ("time", JStr (event_utcnow env ++ "Z"));
         ("datacontenttype", JStr "application/fhir+json");
         ("data", JObj resource)] in
      let lowered :=
        match dict_get "resourceType" resource with
        | None => Ok (lower "unknown")
        | Some (JStr s) => Ok (lower s)
        | Some v =>
            Raise (AttributeError
                     ("'" ++ type_name v ++ "' object has no attribute 'lower'"))
        end in
      match lowered with
      | Raise e => (Some ch, Raise e)
      | Ok rt =>
          let routing_key := service_name svc ++ "." ++ rt ++ "." ++ event_type in
          if broker_reachable ch then
            (Some (mk_channel true
                     (published ch ++ [(routing_key, event)])%list),
             Ok tt)
          else (Some ch, Raise (AMQPError "broker unreachable"))
      end
  end.

Definition interaction (code : string) : json := JObj [("code", JStr code)].

Definition search_param (name type : string) : json :=
  JObj [("name", JStr name); ("type", JStr type)].

(** The entry of one resource type in the capability statement. *)
Definition capability_resource (rt : string) : json :=
  JObj [("type", JStr rt);
        ("interaction",
         JArr [interaction "read"; interaction "vread"; interaction "update";
               interaction "delete"; interaction "create";
               interaction "search-type"]);
        ("versioning", JStr "versioned");
        ("readHistory", JBool false);
        ("updateCreate", JBool true);
        ("conditionalCreate", JBool false);
        ("conditionalRead", JStr "not-supported");
        ("conditionalUpdate", JBool false);
        ("conditionalDelete", JStr "not-supported");
        ("searchParam",
         JArr [search_param "_id" "token";
               search_param "identifier" "token";
               search_param "patient" "reference";
               search_param "status" "token"])].

(** [FHIRService.get_capability_statement]; [now] is the clock reading. *)
Definition get_capability_statement (svc : service) (now : string) : dict :=
  let resources := map capability_resource (supported_resources svc) in
  [("resourceType", JStr "CapabilityStatement");
   ("id", JStr (service_name svc ++ "-capability"));
   ("status", JStr "active");
   ("date", JStr (now ++ "Z"));
   ("kind", JStr "instance");
   ("software",
    JObj [("name", JStr ("Healthcare POC - " ++ upper (service_name svc)));
          ("version", JStr "1.0.0")]);
   ("fhirVersion", JStr "4.0.1");
   ("format", JArr [JStr "json"]);
   ("rest", JArr [JObj [("mode", JStr "server");
                        ("resource", JArr resources)]])].

End Driver.

End Store.

(* ================================================================== *)
(** * The endpoints of [create_fhir_app] *)
(* ================================================================== *)

Module FhirApp.

Import Store.

(** A [JSONResponse]. *)
Record response : Type := mk_response {
  status_code : Z;
  content : json
}.

(** What the endpoints act on: the table and [service.rabbitmq_channel]. *)
Record app_state : Type := mk_app {
  fhir_resources : table;
  broker : option channel
}.

Section Driver.

Variable adapt_value : json -> option string.
Variable container_text : json -> string.
Variable repr_container : json -> string.

(** [POST /fhir/r4/{resource_type}]. A body that is not an object fails
    in [create_resource] at [data.get], after the check of the type. *)
Definition create_resource (svc : service) (senv : store_env)
    (eenv : event_env) (rtype : string) (body : json) (st : app_state)
  : app_state * result response :=
  let stored :=
    match body with
    | JObj data =>
        Store.create_resource adapt_value svc senv rtype data
          (fhir_resources st)
    | _ =>
        (fhir_resources st,
         if negb (str_in rtype (supported_resources svc)) then
           Raise (HTTPException 400
                    ("Resource type " ++ rtype ++ " not supported"))
         else
           Raise (AttributeError
                    ("'" ++ type_name body ++ "' object has no attribute 'get'")))
    end in
  match stored with
  | (tbl, Raise e) => (mk_app tbl (broker st), Raise e)
  | (tbl, Ok result) =>
      match publish_event repr_container svc eenv "created" result
              (broker st) with
      | (ch, Raise e) => (mk_app tbl ch, Raise e)
      | (ch, Ok _) => (mk_app tbl ch, Ok (mk_response 201 (JObj result)))
      end
  end.

(** [GET /fhir/r4/{resource_type}/{resource_id}]. *)
Definition read_resource (rtype rid : string) (st : app_state)
  : result response :=
  match Store.read_resource rtype rid (fhir_resources st) with
  | Raise e => Raise e
  | Ok result => Ok (mk_response 200 (JObj result))
  end.

(** [PUT /fhir/r4/{resource_type}/{resource_id}]. A body that is not an
    object fails in [update_resource] at the first item assignment, once
    the row is found and its version read. *)
Definition update_resource (svc : service) (senv : store_env)
    (eenv : event_env) (rtype rid : string) (body : json) (st : app_state)
  : app_state * result response :=
  let stored :=
    match body with
    | JObj data =>
        Store.update_resource senv rtype rid data (fhir_resources st)
    | _ =>
        (fhir_resources st,
         match first_row rtype rid (fhir_resources st) with
         | None => Raise (not_found rtype rid)
         | Some resource =>
             match int_of_str (version_id resource) with
             | None => Raise (ValueError (version_id resource))
             | Some _ =>
                 Raise (TypeError
                          match body with
                          | JArr _ =>
                              "list indices must be integers or slices, not str"
                          | _ =>
                              "'" ++ type_name body
                              ++ "' object does not support item assignment"
                          end)
             end
         end)
    end in
  match stored with
  | (tbl, Raise e) => (mk_app tbl (broker st), Raise e)
  | (tbl, Ok result) =>
      match publish_event repr_container svc eenv "updated" result
              (broker st) with
      | (ch, Raise e) => (mk_app tbl ch, Raise e)
      | (ch, Ok _) => (mk_app tbl ch, Ok (mk_response 200 (JObj result)))
      end
  end.

(** [DELETE /fhir/r4/{resource_type}/{resource_id}]. *)
Definition delete_resource (rtype rid : string) (st : app_state)
  : app_state * result response :=
  match Store.delete_resource rtype rid (fhir_resources st) with
  | (tbl, Raise e) => (mk_app tbl (broker st), Raise e)
  | (tbl, Ok _) =>
      (mk_app tbl (broker st),
       Ok (mk_response 204 (JObj [("message", JStr "Resource deleted")])))
  end.

(** [GET /fhir/r4/{resource_type}]: [params] is the query string as a
    dict, so every value is a string. *)
Definition search_resources (rtype : string) (params : list (string * string))
    (_count _offset : Z) (st : app_state) : result response :=
  match Store.search_resources container_text rtype
          (map (fun kv => (fst kv, Some (snd kv))) params)
          _count _offset (fhir_resources st) with
  | Raise e => Raise e
  | Ok result => Ok (mk_response 200 (JObj result))
  end.

End Driver.

End FhirApp.

(* ================================================================== *)
(** * services/integration-engine/app/main.py *)
(* ================================================================== *)

Module Router.

(** [ROUTING_RULES] at start-up: a dict from pattern to destinations. *)
Definition ROUTING_RULES : list (string * list string) :=
  [("pas.*.adt.*", ["ehr"; "lis"; "ris"; "pharmacy"; "billing"]);
   ("ehr.servicerequest.created", ["lis"; "ris"]);
   ("lis.diagnosticreport.completed", ["ehr"]);
   ("ris.diagnosticreport.completed", ["ehr"]);
   ("pharmacy.medicationdispense.dispensed", ["ehr"]);
   ("billing.charge.posted", ["ehr"])].

Inductive status : Type := processing | completed | error.

(** An entry of the message log; [entry_error] is the key [error], which
    only a failed message has. *)
Record log_entry : Type := mk_entry {
  timestamp : string;
  routing_key : json;
  message_type : json;
  source : json;
  entry_id : json;
  destinations : list string;
  entry_status : status;
  entry_error : option string
}.

(** [MessageRouter.stats]. *)
Record stats : Type := mk_stats {
  messages_received : Z;
  messages_routed : Z;
  errors : Z
}.

(** The Redis server behind [redis_client]: whether commands reach it,
    and the list [integration:messages], newest first. An element stands
    for the JSON text of the entry. *)
Record redis : Type := mk_redis {
  redis_reachable : bool;
  integration_messages : list log_entry
}.

(** The router object and the globals of the module that it uses. *)
Record engine : Type := mk_engine {
  message_log : list log_entry;
  router_stats : stats;
  rules : list (string * list string);
  services : list (string * string);
  redis_client : option redis
}.

(** [MessageRouter()] in a process whose tables are [rules], [services]. *)
Definition init (rules : list (string * list string))
    (services : list (string * string)) (client : option redis) : engine :=
  mk_engine [] (mk_stats 0 0 0) rules services client.

(** [str(e)]. The router meets [AttributeError] and [OSError] only. *)
Definition exn_text (e : exn) : string :=
  match e with
  | HTTPException status_code detail =>
      str_of_int status_code ++ ": " ++ detail
  | IntegrityError => "IntegrityError"
  | DBAPIError => "DBAPIError"
  | DataError => "DataError"
  | ValueError t | AttributeError t | TypeError t
  | AMQPError t | RedisError t | OSError t => t
  end.

(** The loop of [_matches_pattern] over [zip(key_parts, pattern_parts)]. *)
Fixpoint parts_match (key_parts pattern_parts : list string) : bool :=
  match key_parts, pattern_parts with
  | kp :: ks, pp :: ps =>
      if negb (String.eqb pp "*") && negb (String.eqb kp pp) then false
      else parts_match ks ps
  | _, _ => true
  end.

(** [MessageRouter._matches_pattern]. *)
Definition _matches_pattern (routing_key pattern : string) : bool :=
  let key_parts := split "." routing_key in
  let pattern_parts := split "." pattern in
  if negb (length key_parts =? length pattern_parts)%nat then false
  else parts_match key_parts pattern_parts.

(** [MessageRouter._find_destinations] on a key that is a string. *)
Definition _find_destinations (rules : list (string * list string))
    (routing_key : string) : gset string :=
  fold_left
    (fun destinations rule =>
       if _matches_pattern routing_key (fst rule)
       then destinations ∪ list_to_set (snd rule)
       else destinations)
    rules ∅.

(** [_find_destinations] as [process_message] calls it: a key that is
    not a string has no [split], which the first rule tried finds out. *)
Definition find_destinations (rules : list (string * list string))
    (routing_key : json) : result (list string) :=
  match routing_key with
  | JStr key => Ok (elements (_find_destinations rules key))
  | v =>
      match rules with
      | [] => Ok []
      | _ :: _ =>
          Raise (AttributeError
                   ("'" ++ type_name v ++ "' object has no attribute 'split'"))
      end
  end.

Section Console.

(** [print(f"Forwarding to {destination}: {type}")] for the destination
    and the message type: [None] when the line is written, the text of
    the exception when standard output refuses it. *)
Variable print_forward : string -> json -> option string.

(** [MessageRouter._forward_message]. *)
Definition _forward_message (services : list (string * string))
    (destination : string) (message : dict) : result unit :=
  match List.find (fun kv => String.eqb (fst kv) destination) services with
  | None => Ok tt
  | Some (_, url) =>
      if String.eqb url "" then Ok tt
      else
        match print_forward destination (dict_get_value "type" message) with
        | None => Ok tt
        | Some text => Raise (OSError text)
        end
  end.

(** The loop [for dest in destinations] of [process_message]: the
    counter [messages_routed] afterwards and how the loop ended. *)
Fixpoint forward_each (services : list (string * string))
    (dests : list string) (message : dict) (routed : Z) : Z * result unit :=
  match dests with
  | [] => (routed, Ok tt)
  | dest :: rest =>
      match _forward_message services dest message with
      | Raise e => (routed, Raise e)
      | Ok _ => forward_each services rest message (routed + 1)%Z
      end
  end.

(** [self.message_log[-1000:]]. *)
Definition last_1000 (log : list log_entry) : list log_entry :=
  drop (length log - 1000) log.

(** [MessageRouter.process_message]; [now] is the clock reading. *)
Definition process_message (now : string) (routing_key : json)
    (message : json) (eng : engine) : engine * result unit :=
  let st := router_stats eng in
  let received := (messages_received st + 1)%Z in
  match message with
  | JObj msg =>
      let type := dict_get_value "type" msg in
      let src := dict_get_value "source" msg in
      let mid := dict_get_value "id" msg in
      let entry dests status err :=
        mk_entry (now ++ "Z") routing_key type src mid dests status err in
      (* try ... except Exception as e *)
      let '(log_entry, routed, errs) :=
        match find_destinations (rules eng) routing_key with
        | Raise e =>
            (entry [] error (Some (exn_text e)),
             messages_routed st, (errors st + 1)%Z)
        | Ok dests =>
            match forward_each (services eng) dests msg (messages_routed st) with
            | (routed, Raise e) =>
                (entry dests error (Some (exn_text e)),
                 routed, (errors st + 1)%Z)
            | (routed, Ok _) =>
                (entry dests completed None, routed, errors st)
            end
        end in
      let log := (message_log eng ++ [log_entry])%list in
      let log := if (1000 <? length log)%nat then last_1000 log else log in
      let stats' := mk_stats received routed errs in
      match redis_client eng with
      | None =>
          (mk_engine log stats' (rules eng) (services eng) None, Ok tt)
      | Some r =>
          if redis_reachable r then
            (mk_engine log stats' (rules eng) (services eng)
               (Some (mk_redis true
                        (take 1000 (log_entry :: integration_messages r)))),
             Ok tt)
          else
            (mk_engine log stats' (rules eng) (services eng) (Some r),
             Raise (RedisError "connection refused"))
      end
  | v =>
      (* [message.get] fails while the entry is built, before the try *)
      (mk_engine (message_log eng)
         (mk_stats received (messages_routed st) (errors st))
         (rules eng) (services eng) (redis_client eng),
       Raise (AttributeError
                ("'" ++ type_name v ++ "' object has no attribute 'get'")))
  end.

(** [POST /route]: FastAPI has checked that the body is an object. *)
Definition manual_route (now : string) (message : dict) (eng : engine)
  : engine * result unit :=
  let routing_key :=
    match dict_get "routing_key" message with
    | Some v => v
    | None => JStr "manual.test.message"
    end in
  process_message now routing_key (JObj message) eng.

(** [on_message]: the consumer hands over the decoded body under the
    key of the delivery, and prints what [process_message] raises. *)
Definition on_message (now : string) (routing_key : string) (body : json)
    (eng : engine) : engine :=
  fst (process_message now (JStr routing_key) body eng).

End Console.

(** [POST /rules]: [ROUTING_RULES[pattern] = destinations]. *)
Fixpoint set_rule (pattern : string) (dests : list string)
    (rules : list (string * list string)) : list (string * list string) :=
  match rules with
  | [] => [(pattern, dests)]
  | (p, d) :: rest =>
      if String.eqb pattern p then (p, dests) :: rest
      else (p, d) :: set_rule pattern dests rest
  end.

Definition add_rule (pattern : string) (dests : list string) (eng : engine)
  : engine :=
  mk_engine (message_log eng) (router_stats eng)
    (set_rule pattern dests (rules eng)) (services eng) (redis_client eng).

End Router.

(* ================================================================== *)
(** * What the design document says, in its own terms *)
(* ================================================================== *)

Module Spec.

Import Store.

(** ** The states a service can be in *)

Section Reachable.

Variable adapt_value : json -> option string.
Variable svc : service.

(** The tables a service reaches from the empty one. Every write to
    [fhir_resources] goes through one of the three methods. *)
Inductive reachable : table -> Prop :=
| reach_empty : reachable []
| reach_create env rtype doc tbl :
    reachable tbl ->
    reachable (fst (create_resource adapt_value svc env rtype doc tbl))
| reach_update env rtype rid doc tbl :
    reachable tbl ->
    reachable (fst (update_resource env rtype rid doc tbl))
| reach_delete rtype rid tbl :
    reachable tbl ->
    reachable (fst (delete_resource rtype rid tbl)).

End Reachable.


(** ** The predicates of the query engine *)

(** The search parameters the document lists. *)
Definition recognized : list string :=
  ["patient"; "subject"; "status"; "identifier"; "category"; "code"].




Section Search.

Variable container_text : json -> string.

(** The text of the subject reference field of a document. *)
Definition reference_text (doc : dict) : option string :=
  match dict_get "subject" doc with
  | Some (JObj subject) =>
      match dict_get "reference" subject with
      | Some v => Sql.text_of container_text v
      | None => None
      end
  | _ => None
  end.

(** The text of the scalar status field of a document. *)
Definition status_text (doc : dict) : option string :=
  match dict_get "status" doc with
  | Some v => Sql.text_of container_text v
  | None => None
  end.

(** An array has an object whose member [key] is the string [value]. *)
Definition has_entry (key value : string) (xs : list json) : Prop :=
  exists m, In (JObj m) xs /\ dict_get key m = Some (JStr value).


(** The same with [subject] as the pattern match the query performs. *)
Inductive satisfies (doc : dict) : string -> string -> Prop :=
| sat_patient value :
    reference_text doc = Some ("Patient/" ++ value) ->
    satisfies doc "patient" value
| sat_subject value s :
    reference_text doc = Some s ->
    Sql.like (list_ascii_of_string ("%" ++ value ++ "%"))
             (list_ascii_of_string s) = true ->
    satisfies doc "subject" value
| sat_status value :
    status_text doc = Some value ->
    satisfies doc "status" value
| sat_identifier value xs :
    dict_get "identifier" doc = Some (JArr xs) ->
    has_entry "value" value xs ->
    satisfies doc "identifier" value
| sat_category value xs m cs :
    dict_get "category" doc = Some (JArr xs) ->
    In (JObj m) xs ->
    dict_get "coding" m = Some (JArr cs) ->
    has_entry "code" value cs ->
    satisfies doc "category" value
| sat_code value m cs :
    dict_get "code" doc = Some (JObj m) ->
    dict_get "coding" m = Some (JArr cs) ->
    has_entry "code" value cs ->
    satisfies doc "code" value.

(** A row is selected by a search when it has the type and satisfies
    the predicate of every recognized parameter that has a value. *)
Definition selected (sat : dict -> string -> string -> Prop)
    (rtype : string) (params : list (string * option string)) (r : row)
  : Prop :=
  resource_type r = rtype /\
  forall key value,
    In (key, Some value) params -> In key recognized ->
    sat (data r) key value.

(** A parameter name is ignored when no value of it changes any query. *)
Definition ignored (key : string) : Prop :=
  forall value query,
    add_filter container_text query (key, Some value) = query.

(** Whether the filter a parameter adds keeps a row: the loop body run
    on the query that holds this row only. *)
Definition keeps (param : string * option string) (r : row) : bool :=
  match add_filter container_text [r] param with
  | [] => false
  | _ :: _ => true
  end.

(** Whether a row has the type and is kept by the filter of every
    parameter. *)
Definition selects (rtype : string) (params : list (string * option string))
    (r : row) : bool :=
  String.eqb (resource_type r) rtype && forallb (fun p => keeps p r) params.

End Search.

(** ** The capability statement *)

Definition member (k : string) (v : json) : json :=
  match v with
  | JObj kvs => dict_get_value k kvs
  | _ => JNull
  end.

Definition items (v : json) : list json :=
  match v with
  | JArr xs => xs
  | _ => []
  end.

Definition string_of (v : json) : string :=
  match v with
  | JStr s => s
  | _ => ""
  end.

(** The entries of [rest[0].resource]. *)
Definition advertised_resources (statement : dict) : list json :=
  match items (dict_get_value "rest" statement) with
  | rest0 :: _ => items (member "resource" rest0)
  | [] => []
  end.

Definition advertised_type (entry : json) : string :=
  string_of (member "type" entry).

Definition advertised_interactions (entry : json) : list string :=
  map (fun i => string_of (member "code" i)) (items (member "interaction" entry)).

Definition advertised_search_params (entry : json) : list string :=
  map (fun p => string_of (member "name" p)) (items (member "searchParam" entry)).

(** ** Topic patterns *)

(** A pattern matches a topic when both have the same number of
    dot-segments and every segment of the pattern that is not the
    wildcard equals the segment of the topic at its place. *)
Definition pattern_matches (topic pattern : string) : Prop :=
  length (split "." topic) = length (split "." pattern) /\
  forall i kp pp,
    split "." topic !! i = Some kp ->
    split "." pattern !! i = Some pp ->
    pp <> "*" -> kp = pp.

(** ** The states the router can be in *)

Section Engines.

Variable print_forward : string -> json -> option string.

Inductive reachable_engine : Router.engine -> Prop :=
| engine_init rules services client :
    reachable_engine (Router.init rules services client)
| engine_process now routing_key message eng :
    reachable_engine eng ->
    reachable_engine
      (fst (Router.process_message print_forward now routing_key message eng))
| engine_add_rule pattern dests eng :
    reachable_engine eng ->
    reachable_engine (Router.add_rule pattern dests eng).

End Engines.

End Spec.

(* ================================================================== *)
(** * Sample data *)
(* ================================================================== *)

Module Sample.

Import Store.

(** A driver that takes strings only. *)
Definition strings_only (v : json) : option string := None.

Definition no_text (v : json) : string := "".

Definition ehr : service :=
  mk_service "ehr" ["Patient"; "Observation"; "Encounter"].

Definition monday : store_env :=
  mk_store_env "0b9f6a3e-5c1d-4e8a-9f2b-7d3c1a5e4b60"
               "2024-01-01T09:00:00" "2024-01-01 09:00:00".

Definition tuesday : store_env :=
  mk_store_env "7a1c2e4d-9b3f-4c6a-8d5e-2f4b6a8c0e13"
               "2024-01-02T10:30:00" "2024-01-02 10:30:00".

Definition ann : dict :=
  [("name", JStr "Ann"); ("gender", JStr "female")].

Definition ann_id : string := "0b9f6a3e-5c1d-4e8a-9f2b-7d3c1a5e4b60".

(** The table after [create("Patient", ann)] on an empty database. *)
Definition one_patient : table :=
  fst (create_resource strings_only ehr monday "Patient" ann []).

Definition gender_only : dict := [("gender", JStr "other")].

(** An id of 65 characters, one more than the key column takes. *)
Definition long_id : string :=
  "patient-0123456789-0123456789-0123456789-0123456789-0123456789-01".

(** An observation of patient 7 and the table that holds it alone. *)
Definition hemoglobin : dict :=
  [("id", JStr "obs-1");
   ("status", JStr "final");
   ("subject", JObj [("reference", JStr "Patient/7")]);
   ("identifier", JArr [JObj [("system", JStr "urn:lab"); ("value", JStr "L-42")]]);
   ("code", JObj [("coding", JArr [JObj [("system", JStr "http://loinc.org");
                                         ("code", JStr "718-7")]])])].

Definition one_observation : table :=
  fst (create_resource strings_only ehr monday "Observation" hemoglobin []).

Definition event_stamp : event_env :=
  mk_event_env "c2d4e6f8-1a3b-4c5d-8e7f-9a0b1c2d3e4f" "2024-01-01T09:00:01".

(** A service whose channel was opened and whose broker has gone away. *)
Definition broker_down : FhirApp.app_state :=
  FhirApp.mk_app [] (Some (mk_channel false [])).

(** A service that found no broker when it started. *)
Definition no_broker : FhirApp.app_state := FhirApp.mk_app [] None.

Definition admission : dict :=
  [("type", JStr "org.hl7.fhir.r4.Encounter.adt.a01");
   ("source", JStr "/pas");
   ("id", JStr "evt-1")].

Definition console (destination : string) (type : json) : option string :=
  None.

Definition targets : list (string * string) :=
  [("ehr", "http://localhost:8001"); ("lis", "http://localhost:8002");
   ("ris", "http://localhost:8003"); ("pharmacy", "http://localhost:8005");
   ("pas", "http://localhost:8006"); ("billing", "http://localhost:8007")].

Definition idle : Router.engine :=
  Router.init Router.ROUTING_RULES targets None.

(** The router after [n] admissions, the [k]-th stamped with [k]. *)
Fixpoint fed (n : nat) : Router.engine :=
  match n with
  | O => idle
  | S k =>
      fst (Router.process_message console (str_of_int (Z.of_nat n))
             (JStr "pas.encounter.adt.a01") (JObj admission) (fed k))
  end.

End Sample.

(* ================================================================== *)
(** * More of Python: iteration and slices *)
(* ================================================================== *)

Module PyIter.

(** The elements a [for] loop draws from a value: the items of a list,
    the keys of a dict, the characters of a string; anything else is
    not iterable. *)
Definition iterate (v : json) : result (list json) :=
  match v with
  | JArr xs => Ok xs
  | JObj kvs => Ok (map (fun kv => JStr (fst kv)) kvs)
  | JStr s =>
      Ok (map (fun c => JStr (String c EmptyString)) (list_ascii_of_string s))
  | _ =>
      Raise (TypeError ("'" ++ type_name v ++ "' object is not iterable"))
  end.

(** [d.get(k, default)]. *)
Definition dict_get_default (k : string) (default : json) (d : dict) : json :=
  match dict_get k d with
  | Some v => v
  | None => default
  end.

(** [l[start:]]: a negative start counts from the end and stops at the
    front of the list. *)
Definition slice_from {A : Type} (start : Z) (l : list A) : list A :=
  if (start <? 0)%Z then drop (Z.to_nat (Z.of_nat (length l) + start)) l
  else drop (Z.to_nat start) l.

(** Whether two hashable values are the same dict key: [True] and [1],
    [False] and [0] are. *)
Definition same_key (a b : json) : bool :=
  match a, b with
  | JNull, JNull => true
  | JBool x, JBool y => Bool.eqb x y
  | JNum x, JNum y => (x =? y)%Z
  | JBool x, JNum y | JNum y, JBool x => ((if x then 1 else 0) =? y)%Z
  | JStr x, JStr y => String.eqb x y
  | _, _ => false
  end.

End PyIter.

(* ================================================================== *)
(** * The administrative endpoints of the integration engine *)
(* ================================================================== *)

Module RouterApp.

Import Router.

(** The body of [GET /stats]. *)
Record stats_report : Type := mk_stats_report {
  report_stats : stats;
  routing_rules : Z;
  connected_services : list string
}.

(** [GET /stats]. *)
Definition get_stats (eng : engine) : stats_report :=
  mk_stats_report (router_stats eng)
    (Z.of_nat (length (rules eng)))
    (map fst (services eng)).

(** The body of [GET /messages]. *)
Record messages_report : Type := mk_messages_report {
  messages : list log_entry;
  total : Z
}.

(** [GET /messages]: [router.message_log[-limit:]] and the length of
    the whole log. *)
Definition get_messages (limit : Z) (eng : engine) : messages_report :=
  mk_messages_report
    (PyIter.slice_from (- limit) (message_log eng))
    (Z.of_nat (length (message_log eng))).

(** [msg.get("id") == message_id] for the string of the path. *)
Definition has_id (message_id : string) (entry : log_entry) : bool :=
  match entry_id entry with
  | JStr s => String.eqb s message_id
  | _ => false
  end.

(** [GET /messages/{message_id}]. *)
Definition get_message (message_id : string) (eng : engine)
  : result log_entry :=
  match List.find (has_id message_id) (message_log eng) with
  | Some msg => Ok msg
  | None => Raise (HTTPException 404 "Message not found")
  end.

(** [GET /rules]. *)
Definition get_rules (eng : engine) : list (string * list string) :=
  rules eng.

End RouterApp.

(* ================================================================== *)
(** * Seed loading, as every service does it at start-up *)
(* ================================================================== *)

Module Seed.

Import Store.

Section Driver.

Variable adapt_value : json -> option string.
Variable svc : service.

(** [resource_type in self.supported_resources] for whatever
    [resource.get("resourceType")] gave. *)
Definition supported (resource_type : json) : option string :=
  match resource_type with
  | JStr s => if str_in s (supported_resources svc) then Some s else None
  | _ => None
  end.

(** The loop over the entries of the seed file. An entry or a resource
    that has no [get] ends the loading, by the outer handler; a create
    that raises is passed over, by the inner one. [envs n] is what the
    create of the [n]-th entry reads from outside. *)
Fixpoint load_entries (envs : nat -> store_env) (n : nat)
    (entries : list json) (tbl : table) : table :=
  match entries with
  | [] => tbl
  | JObj entry :: rest =>
      match PyIter.dict_get_default "resource" (JObj []) entry with
      | JObj resource =>
          match supported (dict_get_value "resourceType" resource) with
          | Some resource_type =>
              load_entries envs (S n) rest
                (fst (create_resource adapt_value svc (envs n)
                        resource_type resource tbl))
          | None => load_entries envs (S n) rest tbl
          end
      | _ => tbl
      end
  | _ :: _ => tbl
  end.

(** [_seed_data]; [seed_file] is the decoded content of the seed file,
    [None] when neither path has one or it does not decode. *)
Definition _seed_data (envs : nat -> store_env) (seed_file : option json)
    (tbl : table) : table :=
  match seed_file with
  | Some (JObj seed_data) =>
      match PyIter.iterate
              (PyIter.dict_get_default "entry" (JArr []) seed_data) with
      | Ok entries => load_entries envs 0 entries tbl
      | Raise _ => tbl
      end
  | _ => tbl
  end.

End Driver.

(** The resource of a seed entry, when the entry is an object that has
    one, carries a non-empty string as its id. *)
Definition carries_id (entry : json) : Prop :=
  forall fields resource,
    entry = JObj fields ->
    dict_get "resource" fields = Some (JObj resource) ->
    exists s, dict_get "id" resource = Some (JStr s) /\ s <> "".

(** The entries of a seed file. *)
Definition entries_of (seed_file : option json) : list json :=
  match seed_file with
  | Some (JObj seed_data) =>
      match PyIter.iterate
              (PyIter.dict_get_default "entry" (JArr []) seed_data) with
      | Ok entries => entries
      | Raise _ => []
      end
  | _ => []
  end.

End Seed.

(* ================================================================== *)
(** * services/ehr/app/main.py *)
(* ================================================================== *)

Module Ehr.

Import Store.

Definition SUPPORTED_RESOURCES : list string :=
  ["Patient"; "Practitioner"; "PractitionerRole"; "Organization";
   "Encounter"; "Condition"; "AllergyIntolerance"; "Procedure";
   "CarePlan"; "CareTeam"; "DocumentReference"; "Observation"].

(** [EHRService()]. *)
Definition service : Store.service := mk_service "ehr" SUPPORTED_RESOURCES.

(** The types [$everything] goes through after the patient. *)
Definition related_types : list string :=
  ["Encounter"; "Condition"; "AllergyIntolerance"; "Procedure";
   "Observation"].

Section Driver.

Variable container_text : json -> string.

(** What one turn of the loop of [patient_everything] adds to the
    entries: those of the search, nothing when it raises. *)
Definition related_entries (patient_id : string) (tbl : table)
    (resource_type : string) : list json :=
  match search_resources container_text resource_type
          [("patient", Some patient_id)] 100 0 tbl with
  | Ok results =>
      match PyIter.iterate
              (PyIter.dict_get_default "entry" (JArr []) results) with
      | Ok entries => entries
      | Raise _ => []
      end
  | Raise _ => []
  end.

(** [GET /fhir/r4/Patient/{patient_id}/$everything]. *)
Definition patient_everything (patient_id : string) (tbl : table) : dict :=
  let entry :=
    match read_resource "Patient" patient_id tbl with
    | Ok patient => [JObj [("resource", JObj patient)]]
    | Raise _ => []
    end in
  let entry :=
    fold_left (fun acc rt => (acc ++ related_entries patient_id tbl rt)%list)
      related_types entry in
  [("resourceType", JStr "Bundle");
   ("type", JStr "searchset");
   ("entry", JArr entry);
   ("total", JNum (Z.of_nat (length entry)))].

End Driver.

End Ehr.

(* ================================================================== *)
(** * services/pas/app/main.py *)
(* ================================================================== *)

Module Pas.

Import Store.

Definition SUPPORTED_RESOURCES : list string :=
  ["Patient"; "Encounter"; "Appointment"; "Schedule"; "Slot"; "Location";
   "EpisodeOfCare"].

(** [PASService()]. *)
Definition service : Store.service := mk_service "pas" SUPPORTED_RESOURCES.

Definition ADT_EVENTS : list (string * string) :=
  [("A01", "Patient Admitted");
   ("A02", "Patient Transferred");
   ("A03", "Patient Discharged");
   ("A04", "Patient Registered");
   ("A08", "Patient Information Updated");
   ("A11", "Cancel Admission");
   ("A12", "Cancel Transfer");
   ("A13", "Cancel Discharge")].

(** [ADT_EVENTS[code]] for a code of the table. *)
Definition event_description (code : string) : json :=
  match List.find (fun kv => String.eqb (fst kv) code) ADT_EVENTS with
  | Some (_, description) => JStr description
  | None => JNull
  end.

(** The dict [admit_patient] hands to [publish_event] under ["adt.a01"]. *)
Definition admit_event (encounter : dict) (now : string) : dict :=
  [("eventType", JStr "A01");
   ("eventDescription", event_description "A01");
   ("encounter", JObj encounter);
   ("timestamp", JStr (now ++ "Z"))].

(** The dict [transfer_patient] hands over under ["adt.a02"]. *)
Definition transfer_event (encounter : dict) (new_location_id : string)
    (now : string) : dict :=
  [("eventType", JStr "A02");
   ("eventDescription", event_description "A02");
   ("encounter", JObj encounter);
   ("newLocation", JStr new_location_id);
   ("timestamp", JStr (now ++ "Z"))].

(** The dict [discharge_patient] hands over under ["adt.a03"]. *)
Definition discharge_event (encounter : dict) (now : string) : dict :=
  [("eventType", JStr "A03");
   ("eventDescription", event_description "A03");
   ("encounter", JObj encounter);
   ("timestamp", JStr (now ++ "Z"))].

(** The dict [register_patient] hands over under ["adt.a04"]. *)
Definition register_event (patient : dict) (now : string) : dict :=
  [("eventType", JStr "A04");
   ("eventDescription", event_description "A04");
   ("patient", JObj patient);
   ("timestamp", JStr (now ++ "Z"))].

(** The body of [GET /fhir/r4/Encounter/$census]: the count per
    location reference, in the order the references were first met,
    and the number of encounters looked at. *)
Record census_report : Type := mk_census_report {
  census : list (json * Z);
  total : Z
}.

(** [census.get(key, 0)]. *)
Fixpoint census_get (key : json) (census : list (json * Z)) : Z :=
  match census with
  | [] => 0
  | (k, n) :: rest =>
      if PyIter.same_key k key then n else census_get key rest
  end.

(** [census[key] = n]. *)
Fixpoint census_set (key : json) (n : Z) (census : list (json * Z))
  : list (json * Z) :=
  match census with
  | [] => [(key, n)]
  | (k, m) :: rest =>
      if PyIter.same_key k key then (k, n) :: rest
      else (k, m) :: census_set key n rest
  end.

Definition no_get (v : json) : exn :=
  AttributeError ("'" ++ type_name v ++ "' object has no attribute 'get'").

(** The body of the loop over the locations of an encounter. *)
Definition count_location (census : list (json * Z)) (loc : json)
  : result (list (json * Z)) :=
  match loc with
  | JObj fields =>
      match dict_get_value "status" fields with
      | JStr "active" =>
          match PyIter.dict_get_default "location" (JObj []) fields with
          | JObj location =>
              let loc_ref :=
                PyIter.dict_get_default "reference" (JStr "Unknown")
                  location in
              match loc_ref with
              | JArr _ | JObj _ =>
                  Raise (TypeError
                           ("unhashable type: '" ++ type_name loc_ref ++ "'"))
              | _ =>
                  Ok (census_set loc_ref (census_get loc_ref census + 1)
                        census)
              end
          | v => Raise (no_get v)
          end
      | _ => Ok census
      end
  | v => Raise (no_get v)
  end.

(** A loop whose body can raise. *)
Fixpoint for_each {A S : Type} (body : S -> A -> result S) (xs : list A)
    (s : S) : result S :=
  match xs with
  | [] => Ok s
  | x :: rest =>
      match body s x with
      | Ok s' => for_each body rest s'
      | Raise e => Raise e
      end
  end.

(** The body of the loop over the entries of the search. *)
Definition count_encounter (census : list (json * Z)) (entry : json)
  : result (list (json * Z)) :=
  match entry with
  | JObj fields =>
      match PyIter.dict_get_default "resource" (JObj []) fields with
      | JObj enc =>
          match PyIter.iterate
                  (PyIter.dict_get_default "location" (JArr []) enc) with
          | Ok locs => for_each count_location locs census
          | Raise e => Raise e
          end
      | v => Raise (no_get v)
      end
  | v => Raise (no_get v)
  end.

Section Driver.

Variable container_text : json -> string.

(** [get_census]; [location] is the query parameter, [None] when the
    request has none. *)
Definition get_census (location : option string) (tbl : table)
  : result census_report :=
  let params := [("status", Some "in-progress")] in
  let params :=
    match location with
    | Some l =>
        if String.eqb l "" then params
        else (params ++ [("location", Some l)])%list
    | None => params
    end in
  match search_resources container_text "Encounter" params 100 0 tbl with
  | Raise e => Raise e
  | Ok results =>
      match PyIter.iterate
              (PyIter.dict_get_default "entry" (JArr []) results) with
      | Raise e => Raise e
      | Ok entries =>
          match for_each count_encounter entries [] with
          | Raise e => Raise e
          | Ok census =>
              Ok (mk_census_report census (Z.of_nat (length entries)))
          end
      end
  end.

End Driver.

End Pas.

(* ================================================================== *)
(** * services/billing/app/main.py *)
(* ================================================================== *)

Module Billing.

Definition SUPPORTED_RESOURCES : list string :=
  ["Patient"; "Coverage"; "Claim"; "ClaimResponse"; "ExplanationOfBenefit";
   "Account"; "ChargeItem"; "Invoice"].

(** [BillingService()]. *)
Definition service : Store.service :=
  Store.mk_service "billing" SUPPORTED_RESOURCES.

End Billing.

(* ================================================================== *)
(** * Reading results, and more sample data *)
(* ================================================================== *)

Module View.

(** The entries of the bundle a search returned, none if it raised. *)
Definition entries (r : result dict) : list json :=
  match r with
  | Ok bundle => Spec.items (dict_get_value "entry" bundle)
  | Raise _ => []
  end.


(** A row has a subject reference that is not null. *)
Definition has_reference (container_text : json -> string) (r : Store.row)
  : bool :=
  match Spec.reference_text container_text (Store.data r) with
  | Some _ => true
  | None => false
  end.

(** A name without a dot in it. *)
Definition dot_free (s : string) : Prop :=
  ~ In "."%char (list_ascii_of_string s).

(** The systems behind the rule for ADT events. *)
Definition adt_destinations : list string :=
  ["ehr"; "lis"; "ris"; "pharmacy"; "billing"].

(** A console that writes every line. *)
Definition never_fails (print_forward : string -> json -> option string)
  : Prop :=
  forall destination type, print_forward destination type = None.

End View.

Module Fixtures.

Import Store.

Definition lab_order : dict :=
  [("id", JStr "order-1"); ("status", JStr "active");
   ("subject", JObj [("reference", JStr "Patient/7")])].

(** A seed file with a patient and an observation. *)
Definition seed : json :=
  JObj [("resourceType", JStr "Bundle");
        ("entry",
         JArr [JObj [("resource",
                      JObj [("resourceType", JStr "Patient");
                            ("id", JStr "pat-7");
                            ("name", JStr "Ann")])];
               JObj [("resource",
                      JObj (("resourceType", JStr "Observation")
                            :: Sample.hemoglobin))];
               JObj [("resource",
                      JObj [("resourceType", JStr "Invoice");
                            ("id", JStr "inv-1")])]])].

Definition clocks (n : nat) : store_env :=
  mk_store_env ("00000000-0000-4000-8000-" ++ str_of_int (Z.of_nat n))
               "2024-01-03T08:00:00" "2024-01-03 08:00:00".

Definition encounter (eid : string) (ward : string) : dict :=
  [("id", JStr eid);
   ("status", JStr "in-progress");
   ("subject", JObj [("reference", JStr "Patient/7")]);
   ("location",
    JArr [JObj [("location", JObj [("reference", JStr ward)]);
                ("status", JStr "active")]])].

(** Two encounters in progress on different wards. *)
Definition two_wards : table :=
  fst (create_resource Sample.strings_only Pas.service Sample.tuesday
         "Encounter" (encounter "enc-2" "Location/loc-icu")
         (fst (create_resource Sample.strings_only Pas.service Sample.monday
                 "Encounter" (encounter "enc-1" "Location/loc-er") []))).

Definition working_broker : FhirApp.app_state :=
  FhirApp.mk_app [] (Some (mk_channel true [])).

End Fixtures.

(* ================================================================== *)
(** * Properties *)
(* ================================================================== *)

Import Store.

Open Scope list_scope.

(** ** Dictionaries *)

Lemma dict_get_set_eq (k : string) (v : json) (d : dict) :
  dict_get k (dict_set k v d) = Some v.
Proof.
  induction d as [|[k' v'] d IH]; simpl.
  - now rewrite String.eqb_refl.
  - destruct (String.eqb k k') eqn:E; simpl; rewrite E; auto.
Qed.

Lemma dict_get_set_ne (k k' : string) (v : json) (d : dict) :
  k <> k' -> dict_get k' (dict_set k v d) = dict_get k' d.
Proof.
  intros Hne. induction d as [|[k0 v0] d IH]; simpl.
  - destruct (String.eqb k' k) eqn:E; auto.
    apply String.eqb_eq in E. congruence.
  - destruct (String.eqb k k0) eqn:E; simpl.
    + apply String.eqb_eq in E. subst k0.
      destruct (String.eqb k' k) eqn:E'; auto.
      apply String.eqb_eq in E'. congruence.
    + now rewrite IH.
Qed.

(** The three fields the store writes, on top of a document. *)
Lemma stamped_fields (i t m : json) (d : dict) :
  let doc := dict_set "meta" m (dict_set "resourceType" t (dict_set "id" i d)) in
  dict_get "id" doc = Some i /\
  dict_get "resourceType" doc = Some t /\
  dict_get "meta" doc = Some m /\
  forall k, k <> "id" -> k <> "resourceType" -> k <> "meta" ->
            dict_get k doc = dict_get k d.
Proof.
  cbn zeta. repeat split.
  - rewrite !dict_get_set_ne by discriminate. apply dict_get_set_eq.
  - rewrite dict_get_set_ne by discriminate. apply dict_get_set_eq.
  - apply dict_get_set_eq.
  - intros k H1 H2 H3. rewrite !dict_get_set_ne; auto.
Qed.

(** ** Rows and lookups *)



Lemma first_row_is_resource (rt rid : string) (tbl : table) (r : row) :
  first_row rt rid tbl = Some r ->
  In r tbl /\ resource_type r = rt /\ id r = rid.
Proof.
  unfold first_row. intros H. apply find_some in H as [Hin Hr].
  unfold is_resource in Hr. apply andb_true_iff in Hr as [Ht Hi].
  apply String.eqb_eq in Ht, Hi. auto.
Qed.

Lemma flush_update_ids key doc ver now (tbl : table) :
  map id (flush_update key doc ver now tbl) = map id tbl.
Proof.
  unfold flush_update. rewrite map_map. apply map_ext.
  intros r. now destruct (String.eqb (id r) key).
Qed.

Lemma find_map_pres {A : Type} (p : A -> bool) (f : A -> A) (l : list A) :
  (forall x, p (f x) = p x) ->
  List.find p (map f l) = option_map f (List.find p l).
Proof.
  intros Hp. induction l as [|x l IH]; simpl; auto.
  rewrite Hp. now destruct (p x).
Qed.

(** After the UPDATE the same lookup finds the row with the new document
    and version. *)
Lemma first_row_flush_update rt rid doc ver now (tbl : table) (r : row) :
  first_row rt rid tbl = Some r ->
  first_row rt rid (flush_update (id r) doc ver now tbl) =
  Some (mk_row (id r) (resource_type r) ver doc (created_at r) now).
Proof.
  unfold first_row, flush_update. intros H.
  rewrite find_map_pres.
  - rewrite H. simpl. now rewrite String.eqb_refl.
  - intros x. unfold is_resource.
    now destruct (String.eqb (id x) (id r)).
Qed.

Lemma existsb_id_In (key : string) (tbl : table) :
  existsb (fun r => String.eqb (id r) key) tbl = true <->
  In key (map id tbl).
Proof.
  rewrite existsb_exists, in_map_iff. split.
  - intros (r & Hin & He). apply String.eqb_eq in He. eauto.
  - intros (r & He & Hin). exists r. split; auto. now apply String.eqb_eq.
Qed.

Lemma lookup_map_Some {A B : Type} (f : A -> B) (l : list A) (i : nat) (x : A) :
  l !! i = Some x -> map f l !! i = Some (f x).
Proof.
  revert i. induction l as [|y l IH]; intros [|i]; simpl; try discriminate.
  - now intros [= ->].
  - apply IH.
Qed.

Lemma NoDup_map_filter {A B : Type} (f : A -> B) (p : A -> bool) (l : list A) :
  NoDup (map f l) -> NoDup (map f (List.filter p l)).
Proof.
  induction l as [|x l IH]; simpl; intros H; [constructor|].
  apply NoDup_cons in H as [Hx Hl].
  destruct (p x); simpl; auto.
  apply NoDup_cons. split; auto.
  rewrite list_elem_of_In, in_map_iff in *. intros (y & Hy & Hin).
  apply Hx. exists y. split; auto.
  apply filter_In in Hin. tauto.
Qed.

Section StoreFacts.

Variable adapt_value : json -> option string.
Variable svc : service.

Abbreviation reachable := (Spec.reachable adapt_value svc).

(** What [create_resource] does to the table: nothing, or one more row
    under a key no other row has, at version ["1"]. *)
Lemma create_resource_table env rtype d tbl :
  let tbl' := fst (create_resource adapt_value svc env rtype d tbl) in
  tbl' = tbl \/
  exists r, tbl' = tbl ++ [r] /\ ~ In (id r) (map id tbl) /\
            version_id r = "1".
Proof.
  unfold create_resource.
  destruct (negb _); [now left|].
  destruct (bind_varchar _ _) as [key|]; [|now left].
  destruct (existsb _ tbl) eqn:E; [now left|].
  right. eexists. split; [reflexivity|]. simpl. split; auto.
  rewrite <- existsb_id_In, E. discriminate.
Qed.

Lemma reachable_keys_unique tbl : reachable tbl -> NoDup (map id tbl).
Proof.
  induction 1 as [|env rt d tbl _ IH|env rt rid d tbl _ IH|rt rid tbl _ IH].
  - constructor.
  - destruct (create_resource_table env rt d tbl) as [->|(r & -> & Hr & _)];
      auto.
    rewrite map_app. simpl. apply NoDup_app. repeat split; auto.
    + intros x Hx Hx'. apply list_elem_of_In in Hx, Hx'.
      simpl in Hx'. destruct Hx' as [<-|[]]. auto.
    + apply NoDup_singleton.
  - unfold update_resource.
    destruct (first_row rt rid tbl); auto.
    destruct (int_of_str _); auto.
    simpl. now rewrite flush_update_ids.
  - unfold delete_resource.
    destruct (first_row rt rid tbl); auto.
    simpl. now apply NoDup_map_filter.
Qed.





End StoreFacts.

Section StoreUpdates.

Variable adapt_value : json -> option string.
Variable svc : service.

Abbreviation reachable := (Spec.reachable adapt_value svc).


(** C3. A successful update stores the new document in place of the old
    one, with no merge: a field other than [id], [resourceType] and
    [meta] is in the stored document exactly as it is in the new one, so
    a field of the old document that the new one lacks is gone; [id] and
    [resourceType] are stamped again from the call and [meta] holds the
    incremented version and the time stamp only, whatever the caller put
    under these three names. *)
Theorem update_replaces_document (env : store_env) (rtype rid : string)
    (d : dict) (tbl tbl' : table) (doc : dict) (old : row) :
  first_row rtype rid tbl = Some old ->
  update_resource env rtype rid d tbl = (tbl', Ok doc) ->
  exists n stored,
    int_of_str (version_id old) = Some n /\
    first_row rtype rid tbl' = Some stored /\
    data stored = doc /\
    (forall k, k <> "id" -> k <> "resourceType" -> k <> "meta" ->
       dict_get k (data stored) = dict_get k d) /\
    (forall k, k <> "id" -> k <> "resourceType" -> k <> "meta" ->
       dict_has k d = false -> dict_has k (data stored) = false) /\
    dict_get "id" (data stored) = Some (JStr rid) /\
    dict_get "resourceType" (data stored) = Some (JStr rtype) /\
    dict_get "meta" (data stored) =
      Some (JObj [("versionId", JStr (str_of_int (n + 1)));
                  ("lastUpdated", JStr (utcnow env ++ "Z")%string)]).
Proof.
  intros Hold. unfold update_resource. rewrite Hold.
  destruct (int_of_str (version_id old)) as [n|] eqn:Hn; [|discriminate].
  intros [= <- <-].
  destruct (stamped_fields (JStr rid) (JStr rtype)
              (meta_of (str_of_int (n + 1)) (utcnow env)) d)
    as (Hi & Ht & Hm & Hk).
  eexists n, _. split; [reflexivity|].
  split. { apply first_row_flush_update. exact Hold. }
  cbn [data]. split; [reflexivity|]. split; [exact Hk|].
  split. { intros k H1 H2 H3. unfold dict_has. now rewrite Hk. }
  auto.
Qed.

(** C10. The primary key is the id alone. In a table the service can
    reach no two rows share an id, whatever their types; and a create
    whose document carries an id that some row already has, under any
    type, raises and stores nothing: the table is as it was. *)
Theorem id_unique_across_types (tbl : table) :
  reachable tbl ->
  (forall i j r1 r2,
     tbl !! i = Some r1 -> tbl !! j = Some r2 -> id r1 = id r2 -> i = j) /\
  (forall r1 env rtype d v,
     In r1 tbl ->
     dict_get "id" d = Some v -> truthy v = true ->
     bind_varchar adapt_value v = Some (id r1) ->
     exists e,
       create_resource adapt_value svc env rtype d tbl = (tbl, Raise e) /\
       (str_in rtype (supported_resources svc) = true ->
        e = IntegrityError)).
Proof.
  intros Hreach. split.
  - intros i j r1 r2 H1 H2 Heq.
    pose proof (reachable_keys_unique _ _ _ Hreach) as Hnd.
    eapply NoDup_lookup; [exact Hnd| |].
    + apply lookup_map_Some. exact H1.
    + rewrite Heq. apply lookup_map_Some. exact H2.
  - intros r1 env rtype d v Hin Hd Hv Hb.
    unfold create_resource.
    destruct (str_in rtype (supported_resources svc)); simpl negb; cbv iota.
    + rewrite Hd, Hv, Hb.
      assert (existsb (fun r => String.eqb (id r) (id r1)) tbl = true) as ->.
      { apply existsb_id_In. now apply in_map. }
      eauto.
    + eexists. split; [reflexivity|]. discriminate.
Qed.

End StoreUpdates.

(** ** The store on sample data *)


(** What the key column refuses is not stored: an id of 65 characters,
    and an id that is a list. *)
Lemma create_refuses_the_id :
  String.length Sample.long_id = 65 /\
  create_resource Sample.strings_only Sample.ehr Sample.monday "Patient"
    [("id", JStr Sample.long_id)] Sample.one_patient
  = (Sample.one_patient, Raise DataError) /\
  create_resource Sample.strings_only Sample.ehr Sample.monday "Patient"
    [("id", JArr [JStr "pat-7"])] Sample.one_patient
  = (Sample.one_patient, Raise (TypeError "unhashable type: 'list'")).
Proof. repeat split. Qed.

Lemma one_patient_reachable :
  Spec.reachable Sample.strings_only Sample.ehr Sample.one_patient.
Proof. apply Spec.reach_create, Spec.reach_empty. Qed.


(** On the sample: the name of the stored patient, which the new
    document lacks, is gone after the update, and the id, which the new
    document lacks as well, is stamped again. *)
Lemma update_keeps_id_field :
  exists old tbl' doc stored,
    first_row "Patient" Sample.ann_id Sample.one_patient = Some old /\
    update_resource Sample.tuesday "Patient" Sample.ann_id
      Sample.gender_only Sample.one_patient = (tbl', Ok doc) /\
    first_row "Patient" Sample.ann_id tbl' = Some stored /\
    dict_has "id" (data old) = true /\
    dict_has "id" Sample.gender_only = false /\
    dict_has "id" (data stored) = true /\
    dict_has "name" (data old) = true /\
    dict_has "name" (data stored) = false.
Proof. eexists _, _, _, _. vm_compute. repeat split. Qed.

Lemma update_replaces_document_witness :
  exists stored,
    first_row "Patient" Sample.ann_id
      (fst (update_resource Sample.tuesday "Patient" Sample.ann_id
              Sample.gender_only Sample.one_patient)) = Some stored /\
    dict_get "gender" (data stored) = Some (JStr "other") /\
    dict_get "name" (data stored) = None.
Proof.
  destruct (update_replaces_document Sample.tuesday "Patient" Sample.ann_id
              Sample.gender_only Sample.one_patient _ _ _ eq_refl eq_refl)
    as (n & stored & _ & Hs & _ & Hk & _).
  exists stored. split; [exact Hs|].
  split; rewrite Hk by discriminate; reflexivity.
Defined.

Lemma id_unique_across_types_witness :
  exists e,
    create_resource Sample.strings_only Sample.ehr Sample.tuesday
      "Observation" [("id", JStr Sample.ann_id); ("status", JStr "final")]
      Sample.one_patient = (Sample.one_patient, Raise e).
Proof.
  destruct (id_unique_across_types Sample.strings_only Sample.ehr
              Sample.one_patient one_patient_reachable) as [_ Hc].
  destruct (first_row_is_resource "Patient" Sample.ann_id
              Sample.one_patient _ eq_refl) as (Hin & _ & _).
  destruct (Hc _ Sample.tuesday "Observation"
              [("id", JStr Sample.ann_id); ("status", JStr "final")]
              (JStr Sample.ann_id) Hin eq_refl eq_refl eq_refl)
    as (e & He & _).
  exists e. exact He.
Defined.

(** ** LIKE patterns *)

Lemma like_nil (s : list ascii) : Sql.like [] s = true <-> s = [].
Proof. destruct s; simpl; split; intros H; try reflexivity; discriminate. Qed.

Lemma like_percent (p s : list ascii) :
  Sql.like ("%"%char :: p) s = true <->
  exists pre rest, s = pre ++ rest /\ Sql.like p rest = true.
Proof.
  change (Sql.like ("%"%char :: p)) with
    (fix any (s : list ascii) : bool :=
       Sql.like p s || match s with [] => false | _ :: s' => any s' end).
  induction s as [|c s IH].
  - rewrite orb_false_r. split.
    + intros H. now exists [], [].
    + intros (pre & rest & Hs & H).
      symmetry in Hs. apply app_eq_nil in Hs as [_ ->]. exact H.
  - rewrite orb_true_iff, IH. split.
    + intros [H|(pre & rest & -> & H)].
      * now exists [], (c :: s).
      * now exists (c :: pre), rest.
    + intros ([|x pre] & rest & Hs & H); simpl in Hs.
      * left. now rewrite Hs.
      * injection Hs as -> ->. right. eauto.
Qed.






(** ** jsonb containment on the patterns of the query engine *)

Lemma scalar_eqb_str (x : json) (v : string) :
  Sql.scalar_eqb x (JStr v) = true <-> x = JStr v.
Proof.
  destruct x; simpl; split; try discriminate.
  - intros H. apply String.eqb_eq in H. now subst.
  - intros [= ->]. apply String.eqb_refl.
Qed.

(** [x @> {key: value}] for a string [value]. *)
Lemma contains_member_str (key value : string) (x : json) :
  Sql.deep_contains x (JObj [(key, JStr value)]) = true <->
  exists m, x = JObj m /\ dict_get key m = Some (JStr value).
Proof.
  destruct x; simpl; split; try discriminate;
    try (now intros (m & [=] & _)).
  - rewrite andb_true_r.
    destruct (dict_get key kvs) as [y|] eqn:E; [|discriminate].
    intros H. apply scalar_eqb_str in H as ->. eauto.
  - intros (m & [= <-] & ->). simpl. now rewrite String.eqb_refl.
Qed.

(** [x @> {key: p}] for a pattern [p] that is an array or an object. *)
Lemma contains_member_deep (key : string) (p x : json) :
  Sql.is_scalar p = false ->
  Sql.deep_contains x (JObj [(key, p)]) = true <->
  exists m y, x = JObj m /\ dict_get key m = Some y /\
              Sql.deep_contains y p = true.
Proof.
  intros Hp. destruct x; simpl; split; try discriminate;
    try (now intros (m & y & [=] & _)).
  - rewrite Hp, andb_true_r.
    destruct (dict_get key kvs) as [y|] eqn:E; [|discriminate]. eauto.
  - intros (m & y & [= <-] & -> & H). now rewrite Hp, H.
Qed.

(** [x @> [p]] for a pattern [p] that is an array or an object. *)
Lemma deep_contains_array_of (p x : json) :
  Sql.is_scalar p = false ->
  Sql.deep_contains x (JArr [p]) = true <->
  exists xs y, x = JArr xs /\ In y xs /\ Sql.deep_contains y p = true.
Proof.
  intros Hp. destruct x; simpl; split; try discriminate;
    try (now intros (ys & y & [=] & _)).
  - rewrite Hp, andb_true_r. intros E.
    apply existsb_exists in E as (x & Hin & Hx). eauto.
  - intros (ys & y & [= <-] & Hin & Hy). rewrite Hp, andb_true_r.
    apply existsb_exists. eauto.
Qed.

(** The same as a WHERE clause on a column that can be NULL. *)
Lemma contains_array_of (p : json) (a : option json) :
  Sql.is_scalar p = false ->
  Sql.holds (Sql.jsonb_contains a (JArr [p])) = true <->
  exists xs x, a = Some (JArr xs) /\ In x xs /\
               Sql.deep_contains x p = true.
Proof.
  intros Hp. destruct a as [x|].
  - assert (Sql.holds (Sql.jsonb_contains (Some x) (JArr [p]))
            = Sql.deep_contains x (JArr [p])) as ->.
    { unfold Sql.jsonb_contains, Sql.holds. cbn [Sql.is_scalar].
      now destruct (Sql.deep_contains x (JArr [p])). }
    rewrite deep_contains_array_of by exact Hp. split.
    + intros (xs & y & -> & H). eauto.
    + intros (xs & y & [= ->] & H). eauto.
  - split; [discriminate|]. now intros (xs & y & [=] & _).
Qed.

Lemma has_entry_iff (key value : string) (xs : list json) :
  Spec.has_entry key value xs <->
  exists x, In x xs /\ Sql.deep_contains x (JObj [(key, JStr value)]) = true.
Proof.
  unfold Spec.has_entry. split.
  - intros (m & Hin & Hm). exists (JObj m). split; auto.
    apply contains_member_str. eauto.
  - intros (x & Hin & Hx). apply contains_member_str in Hx as (m & -> & Hm).
    eauto.
Qed.

(** ** The query engine *)

Lemma filter_true {A : Type} (l : list A) : List.filter (fun _ => true) l = l.
Proof. induction l; simpl; congruence. Qed.

Lemma filter_filter {A : Type} (p q : A -> bool) (l : list A) :
  List.filter p (List.filter q l) = List.filter (fun x => q x && p x) l.
Proof.
  induction l as [|x l IH]; simpl; auto.
  destruct (q x); simpl; [destruct (p x)|]; congruence.
Qed.

Lemma filter_one {A : Type} (f : A -> bool) (l : list A) :
  List.filter
    (fun r => match List.filter f [r] with [] => false | _ :: _ => true end) l
  = List.filter f l.
Proof. apply List.filter_ext. intros r. simpl. now destruct (f r). Qed.

Section QueryFacts.

Variable container_text : json -> string.

Abbreviation add_filter := (Store.add_filter container_text).
Abbreviation keeps := (Spec.keeps container_text).
Abbreviation selects := (Spec.selects container_text).
Abbreviation satisfies := (Spec.satisfies container_text).
Abbreviation reference_text := (Spec.reference_text container_text).

(** Each turn of the loop filters the query by a test on the row. *)
Lemma add_filter_keeps (query : list row) (param : string * option string) :
  add_filter query param = List.filter (keeps param) query.
Proof.
  unfold Spec.keeps, Store.add_filter.
  destruct (String.prefix "_" (fst param)); [now rewrite filter_true|].
  destruct (snd param) as [value|]; [|now rewrite filter_true].
  repeat (match goal with
          | |- context [if String.eqb ?a ?b then _ else _] =>
              destruct (String.eqb a b)
          end; [now rewrite filter_one|]).
  now rewrite filter_true.
Qed.

Lemma fold_add_filter (params : list (string * option string))
    (query : list row) :
  fold_left add_filter params query =
  List.filter (fun r => forallb (fun p => keeps p r) params) query.
Proof.
  revert query. induction params as [|p ps IH]; intros query; simpl.
  - now rewrite filter_true.
  - now rewrite IH, add_filter_keeps, filter_filter.
Qed.

(** The query after the loop is the table filtered once. *)
Lemma build_query_selects (rtype : string)
    (params : list (string * option string)) (tbl : table) :
  build_query container_text rtype params tbl =
  List.filter (selects rtype params) tbl.
Proof.
  unfold build_query, Spec.selects. now rewrite fold_add_filter, filter_filter.
Qed.

Lemma subject_reference_text (r : row) :
  subject_reference container_text r = reference_text (data r).
Proof.
  unfold subject_reference, Spec.reference_text, Sql.arrow_text, Sql.arrow.
  destruct (dict_get "subject" (data r)) as [[]|]; reflexivity.
Qed.

Lemma holds_text_eq (a : option string) (b : string) :
  Sql.holds (Sql.text_eq a b) = true <-> a = Some b.
Proof.
  destruct a as [s|]; simpl; [|split; discriminate].
  destruct (String.eqb s b) eqn:E.
  - apply String.eqb_eq in E. subst. tauto.
  - apply String.eqb_neq in E. split; [discriminate|congruence].
Qed.

Lemma holds_text_contains (a : option string) (value : string) :
  Sql.holds (Sql.text_contains a value) = true <->
  exists s, a = Some s /\
    Sql.like (list_ascii_of_string ("%" ++ value ++ "%")%string)
             (list_ascii_of_string s) = true.
Proof.
  unfold Sql.text_contains, Sql.holds. destruct a as [s|].
  - destruct (Sql.like (list_ascii_of_string ("%" ++ value ++ "%")%string)
                (list_ascii_of_string s)) eqn:E.
    + split; eauto.
    + split; [discriminate|]. intros (s' & [= <-] & H). congruence.
  - split; [discriminate|]. now intros (s' & [=] & _).
Qed.

(** Run the loop body on one row for a parameter name that is known. *)
Ltac run_keeps :=
  unfold Spec.keeps, Store.add_filter; cbn [fst snd];
  repeat match goal with
    | |- context [String.prefix ?a ?b] =>
        let v := eval vm_compute in (String.prefix a b) in
        change (String.prefix a b) with v
    end;
  repeat match goal with
    | |- context [String.eqb ?a ?b] =>
        let v := eval vm_compute in (String.eqb a b) in
        change (String.eqb a b) with v
    end;
  cbv iota; cbn [List.filter].

Lemma kept_iff (c : bool) (r : row) :
  match (if c then [r] else []) with [] => false | _ :: _ => true end = true
  <-> c = true.
Proof. destruct c; simpl; tauto. Qed.

Lemma keeps_patient (value : string) (r : row) :
  keeps ("patient", Some value) r = true <-> satisfies (data r) "patient" value.
Proof.
  run_keeps. rewrite kept_iff, holds_text_eq, subject_reference_text. split.
  - apply Spec.sat_patient.
  - now inversion 1.
Qed.

Lemma keeps_subject (value : string) (r : row) :
  keeps ("subject", Some value) r = true <-> satisfies (data r) "subject" value.
Proof.
  run_keeps.
  rewrite kept_iff, holds_text_contains, subject_reference_text. split.
  - intros (s & Hs & Hl). eapply Spec.sat_subject; eauto.
  - inversion 1; subst. eauto.
Qed.

Lemma keeps_status (value : string) (r : row) :
  keeps ("status", Some value) r = true <-> satisfies (data r) "status" value.
Proof.
  run_keeps. rewrite kept_iff, holds_text_eq.
  assert (Sql.arrow_text container_text (Some (JObj (data r))) "status"
          = Spec.status_text container_text (data r)) as -> by reflexivity.
  split.
  - apply Spec.sat_status.
  - now inversion 1.
Qed.

Lemma keeps_identifier (value : string) (r : row) :
  keeps ("identifier", Some value) r = true <->
  satisfies (data r) "identifier" value.
Proof.
  run_keeps. rewrite kept_iff, contains_array_of by reflexivity. split.
  - intros (xs & x & Ha & Hin & Hx). eapply Spec.sat_identifier.
    + exact Ha.
    + apply has_entry_iff. eauto.
  - inversion 1 as [| | |v xs Ha He| |]; subst.
    apply has_entry_iff in He as (x & Hin & Hx). eauto.
Qed.

Lemma keeps_category (value : string) (r : row) :
  keeps ("category", Some value) r = true <->
  satisfies (data r) "category" value.
Proof.
  run_keeps. rewrite kept_iff, contains_array_of by reflexivity. split.
  - intros (xs & x & Ha & Hin & Hx).
    apply contains_member_deep in Hx as (m & y & -> & Hm & Hy);
      [|reflexivity].
    destruct y as [| | | |cs|]; try discriminate.
    eapply Spec.sat_category; [exact Ha|exact Hin|exact Hm|].
    apply has_entry_iff.
    apply deep_contains_array_of in Hy as (cs' & c & [= <-] & Hc);
      [|reflexivity].
    eauto.
  - inversion 1 as [| | | |v xs m cs Ha Hin Hm He|]; subst.
    exists xs, (JObj m). split; [exact Ha|]. split; [exact Hin|].
    apply contains_member_deep; [reflexivity|].
    exists m, (JArr cs). split; [reflexivity|]. split; [exact Hm|].
    apply has_entry_iff in He as (c & Hc & Hx).
    apply deep_contains_array_of; [reflexivity|]. eauto.
Qed.

Lemma keeps_code (value : string) (r : row) :
  keeps ("code", Some value) r = true <-> satisfies (data r) "code" value.
Proof.
  run_keeps. rewrite kept_iff, contains_array_of by reflexivity.
  unfold Sql.arrow. split.
  - intros (cs & c & Ha & Hin & Hx).
    destruct (dict_get "code" (data r)) as [[| | | | |m]|] eqn:Hc;
      try discriminate.
    eapply Spec.sat_code; [exact Hc|exact Ha|].
    apply has_entry_iff. eauto.
  - inversion 1 as [| | | | |v m cs Hc Hm He]; subst.
    rewrite Hc. apply has_entry_iff in He as (c & Hin & Hx). eauto.
Qed.

End QueryFacts.

Section SearchFacts.

Variable container_text : json -> string.

Abbreviation keeps := (Spec.keeps container_text).
Abbreviation selects := (Spec.selects container_text).
Abbreviation satisfies := (Spec.satisfies container_text).

Lemma keeps_recognized (key value : string) (r : row) :
  In key Spec.recognized ->
  keeps (key, Some value) r = true <-> satisfies (data r) key value.
Proof.
  unfold Spec.recognized. simpl.
  intros [<-|[<-|[<-|[<-|[<-|[<-|[]]]]]]].
  - apply keeps_patient.
  - apply keeps_subject.
  - apply keeps_status.
  - apply keeps_identifier.
  - apply keeps_category.
  - apply keeps_code.
Qed.

(** A name that starts with an underscore or is not in the vocabulary
    adds no filter. *)
Lemma unrecognized_ignored (key : string) :
  String.prefix "_" key = true \/ ~ In key Spec.recognized ->
  Spec.ignored container_text key.
Proof.
  intros H value query. unfold Store.add_filter. cbn [fst snd].
  destruct (String.prefix "_" key); [reflexivity|].
  destruct H as [H|H]; [discriminate|].
  repeat match goal with
    | |- context [String.eqb key ?b] =>
        replace (String.eqb key b) with false
          by (symmetry; apply String.eqb_neq; intros ->; apply H;
              unfold Spec.recognized; simpl; tauto)
    end.
  reflexivity.
Qed.

Lemma keeps_no_value (key : string) (r : row) : keeps (key, None) r = true.
Proof.
  unfold Spec.keeps, Store.add_filter. cbn [fst snd].
  now destruct (String.prefix "_" key).
Qed.

Lemma keeps_unrecognized (key value : string) (r : row) :
  ~ In key Spec.recognized -> keeps (key, Some value) r = true.
Proof.
  intros H. unfold Spec.keeps.
  rewrite (unrecognized_ignored key); auto.
Qed.

Lemma In_recognized_dec (key : string) :
  {In key Spec.recognized} + {~ In key Spec.recognized}.
Proof. apply in_dec, string_dec. Qed.

(** The test of the loop is the selection the document describes. *)
Lemma selects_iff (rtype : string) (params : list (string * option string))
    (r : row) :
  selects rtype params r = true <->
  Spec.selected satisfies rtype params r.
Proof.
  unfold Spec.selects, Spec.selected.
  rewrite andb_true_iff, String.eqb_eq, forallb_forall. split.
  - intros [Ht Hp]. split; [exact Ht|].
    intros key value Hin Hrec. apply keeps_recognized; auto.
  - intros [Ht Hp]. split; [exact Ht|].
    intros [key [value|]] Hin; [|apply keeps_no_value].
    destruct (In_recognized_dec key) as [Hrec|Hrec].
    + apply keeps_recognized; auto.
    + now apply keeps_unrecognized.
Qed.





End SearchFacts.




(** ** Topic patterns and destinations *)

Import Router.

Lemma parts_match_iff (ks ps : list string) :
  length ks = length ps ->
  parts_match ks ps = true <->
  forall i kp pp, ks !! i = Some kp -> ps !! i = Some pp ->
                  pp <> "*" -> kp = pp.
Proof.
  revert ps. induction ks as [|k ks IH]; intros [|p ps] Hlen;
    try discriminate.
  - simpl. split; auto. intros _ i kp pp Hk. destruct i; discriminate.
  - injection Hlen as Hlen. simpl.
    destruct (String.eqb p "*") eqn:Hw; simpl.
    + apply String.eqb_eq in Hw. subst p.
      rewrite (IH ps Hlen). split.
      * intros H [|i] kp pp Hk Hp Hne; simpl in *.
        -- injection Hp as <-. congruence.
        -- eapply H; eauto.
      * intros H i kp pp Hk Hp. apply (H (S i)); assumption.
    + apply String.eqb_neq in Hw.
      destruct (String.eqb k p) eqn:He; simpl.
      * apply String.eqb_eq in He. subst p.
        rewrite (IH ps Hlen). split.
        -- intros H [|i] kp pp Hk Hp Hne; simpl in *.
           ++ congruence.
           ++ eapply H; eauto.
        -- intros H i kp pp Hk Hp. apply (H (S i)); assumption.
      * apply String.eqb_neq in He. split; [discriminate|].
        intros H. exfalso. apply He. now apply (H 0).
Qed.

(** The check of the code is the rule of the document. *)
Lemma matches_pattern_iff (topic pattern : string) :
  _matches_pattern topic pattern = true <->
  Spec.pattern_matches topic pattern.
Proof.
  unfold _matches_pattern, Spec.pattern_matches.
  destruct (Nat.eqb_spec (length (split "." topic))
              (length (split "." pattern))) as [Hlen|Hlen]; simpl.
  - rewrite parts_match_iff by exact Hlen. tauto.
  - split; [discriminate|tauto].
Qed.

Lemma fold_destinations (rules : list (string * list string))
    (topic : string) (acc : gset string) (d : string) :
  d ∈ fold_left
        (fun destinations rule =>
           if _matches_pattern topic (fst rule)
           then destinations ∪ list_to_set (snd rule)
           else destinations)
        rules acc <->
  d ∈ acc \/
  exists pattern dests,
    In (pattern, dests) rules /\
    _matches_pattern topic pattern = true /\ In d dests.
Proof.
  revert acc. induction rules as [|[p ds] rules IH]; intros acc; simpl.
  - split; [auto|]. intros [H|(p & ds & [] & _)]. exact H.
  - rewrite IH. destruct (_matches_pattern topic p) eqn:Hm.
    + rewrite elem_of_union, elem_of_list_to_set, list_elem_of_In. split.
      * intros [[H|H]|(p' & ds' & Hin & H)]; eauto 8.
      * intros [H|(p' & ds' & [[= <- <-]|Hin] & Hm' & Hd)]; eauto 8.
    + split.
      * intros [H|(p' & ds' & Hin & H)]; eauto 8.
      * intros [H|(p' & ds' & [[= <- <-]|Hin] & Hm' & Hd)]; eauto 8.
        congruence.
Qed.

(** C5. The destinations of a topic are those of the rules whose
    pattern matches it, taken together; a pattern matches when it has
    as many dot-segments as the topic and each of its segments is the
    wildcard or the segment of the topic. The topic
    [pas.encounter.adt.a01] matches [pas.*.adt.*] and gets the
    destinations of that rule, [pas.encounter.adt] does not match. *)
Theorem destinations_are_union_of_matches :
  (forall rules topic d,
     d ∈ _find_destinations rules topic <->
     exists pattern dests,
       In (pattern, dests) rules /\
       Spec.pattern_matches topic pattern /\ In d dests) /\
  (forall rules topic d,
     find_destinations rules (JStr topic)
       = Ok (elements (_find_destinations rules topic)) /\
     (In d (elements (_find_destinations rules topic)) <->
      d ∈ _find_destinations rules topic)) /\
  Spec.pattern_matches "pas.encounter.adt.a01" "pas.*.adt.*" /\
  ~ Spec.pattern_matches "pas.encounter.adt" "pas.*.adt.*" /\
  (forall d, d ∈ _find_destinations ROUTING_RULES "pas.encounter.adt.a01" <->
             In d ["ehr"; "lis"; "ris"; "pharmacy"; "billing"]) /\
  (forall rules d, ~ d ∈ _find_destinations
                           [("pas.*.adt.*", rules)] "pas.encounter.adt").
Proof.
  assert (forall rules topic d,
     d ∈ _find_destinations rules topic <->
     exists pattern dests,
       In (pattern, dests) rules /\
       Spec.pattern_matches topic pattern /\ In d dests) as Hunion.
  { intros rules topic d. unfold _find_destinations.
    rewrite fold_destinations. split.
    - intros [H|(p & ds & Hin & Hm & Hd)]; [set_solver|].
      apply matches_pattern_iff in Hm. eauto.
    - intros (p & ds & Hin & Hm & Hd). right.
      apply matches_pattern_iff in Hm. eauto. }
  split; [exact Hunion|].
  split.
  { intros rules topic d. split; [reflexivity|].
    rewrite <- list_elem_of_In. apply elem_of_elements. }
  split. { apply matches_pattern_iff. reflexivity. }
  split. { rewrite <- matches_pattern_iff. discriminate. }
  split.
  - intros d. rewrite Hunion. split.
    + intros (p & ds & Hin & Hm & Hd).
      apply matches_pattern_iff in Hm. simpl in Hin.
      repeat (destruct Hin as [[= <- <-]|Hin]; [try discriminate Hm|]);
        [exact Hd|contradiction].
    + intros Hd. exists "pas.*.adt.*", ["ehr"; "lis"; "ris"; "pharmacy"; "billing"].
      split; [simpl; auto|]. split; [|exact Hd].
      apply matches_pattern_iff. reflexivity.
  - intros rules d. rewrite Hunion.
    intros (p & ds & [[= <- <-]|[]] & Hm & _).
    apply matches_pattern_iff in Hm. discriminate.
Qed.

(** ** The message log *)

Lemma keep_last_1000 (log : list log_entry) (entry : log_entry) :
  let l := log ++ [entry] in
  (if (1000 <? length l)%nat then last_1000 l else l)
  = drop (length log + 1 - 1000) log ++ [entry].
Proof.
  cbv zeta. unfold last_1000. rewrite length_app.
  change (length [entry]) with 1.
  destruct (Nat.ltb_spec 1000 (length log + 1)) as [H|H].
  - apply drop_app_le. lia.
  - replace (length log + 1 - 1000) with 0 by lia. reflexivity.
Qed.

Section RouterFacts.

Variable print_forward : string -> json -> option string.

Abbreviation process_message := (Router.process_message print_forward).
Abbreviation forward_each := (Router.forward_each print_forward).
Abbreviation reachable_engine := (Spec.reachable_engine print_forward).

(** What a call with an object as message leaves behind, by the way the
    try block ends. *)
Lemma process_message_object (now : string) (rk : json) (msg : dict)
    (eng : engine) :
  exists entry routed errs,
    let log := drop (length (message_log eng) + 1 - 1000) (message_log eng)
               ++ [entry] in
    message_log (fst (process_message now rk (JObj msg) eng)) = log /\
    router_stats (fst (process_message now rk (JObj msg) eng))
      = mk_stats (messages_received (router_stats eng) + 1) routed errs /\
    rules (fst (process_message now rk (JObj msg) eng)) = rules eng /\
    match find_destinations (rules eng) rk with
    | Raise e =>
        entry_status entry = error /\
        entry_error entry = Some (exn_text e) /\
        errs = (errors (router_stats eng) + 1)%Z
    | Ok dests =>
        match snd (forward_each (services eng) dests msg
                     (messages_routed (router_stats eng))) with
        | Raise e =>
            entry_status entry = error /\
            entry_error entry = Some (exn_text e) /\
            errs = (errors (router_stats eng) + 1)%Z
        | Ok _ =>
            entry_status entry = completed /\
            entry_error entry = None /\
            errs = errors (router_stats eng)
        end
    end.
Proof.
  unfold Router.process_message.
  destruct (find_destinations (rules eng) rk) as [dests|e].
  - destruct (forward_each (services eng) dests msg
                (messages_routed (router_stats eng))) as [routed [u|e]];
      cbv zeta; rewrite keep_last_1000;
      destruct (redis_client eng) as [r|]; [destruct (redis_reachable r)| |
                                            destruct (redis_reachable r)|];
      cbn [fst message_log router_stats rules snd];
      eexists _, _, _; repeat split.
  - cbv zeta; rewrite keep_last_1000;
      destruct (redis_client eng) as [r|]; [destruct (redis_reachable r)|];
      cbn [fst message_log router_stats rules];
      eexists _, _, _; repeat split.
Qed.

(** C6. For an event, which is an object: a call of [process_message]
    adds one to [messages_received] and appends one entry to the log,
    whether or not the try block raises: the log afterwards is the log
    before with the entry at its end, all of it while it has fewer than
    1000 entries, and otherwise less the oldest entries that the cut to
    the last 1000 takes away, one when the log held 1000. When matching
    or forwarding raises, the entry has status [error] and the text of
    the exception and [errors] goes up by one; the exception does not
    leave the call, whose outcome depends on the Redis mirror alone. *)
Theorem process_message_catches (now : string) (rk : json) (msg : dict)
    (eng : engine) :
  let run := process_message now rk (JObj msg) eng in
  exists entry,
    message_log (fst run)
      = drop (length (message_log eng) + 1 - 1000) (message_log eng)
        ++ [entry] /\
    (length (message_log eng) < 1000 ->
     message_log (fst run) = message_log eng ++ [entry]) /\
    (length (message_log eng) = 1000 ->
     message_log (fst run) = drop 1 (message_log eng) ++ [entry]) /\
    messages_received (router_stats (fst run))
      = (messages_received (router_stats eng) + 1)%Z /\
    (forall e,
       find_destinations (rules eng) rk = Raise e \/
       (exists dests,
          find_destinations (rules eng) rk = Ok dests /\
          snd (forward_each (services eng) dests msg
                 (messages_routed (router_stats eng))) = Raise e) ->
       entry_status entry = error /\
       entry_error entry = Some (exn_text e) /\
       errors (router_stats (fst run)) = (errors (router_stats eng) + 1)%Z) /\
    ((exists dests,
        find_destinations (rules eng) rk = Ok dests /\
        snd (forward_each (services eng) dests msg
               (messages_routed (router_stats eng))) = Ok tt) ->
     entry_status entry = completed /\
     entry_error entry = None /\
     errors (router_stats (fst run)) = errors (router_stats eng)) /\
    snd run = match redis_client eng with
              | Some r =>
                  if redis_reachable r then Ok tt
                  else Raise (RedisError "connection refused")
              | None => Ok tt
              end.
Proof.
  cbv zeta.
  destruct (process_message_object now rk msg eng)
    as (entry & routed & errs & Hlog & Hstats & _ & Hend).
  exists entry.
  split; [exact Hlog|].
  split.
  { intros Hlt. rewrite Hlog.
    now replace (length (message_log eng) + 1 - 1000) with 0 by lia. }
  split.
  { intros Hfull. rewrite Hlog.
    now replace (length (message_log eng) + 1 - 1000) with 1 by lia. }
  rewrite Hstats. cbn [messages_received errors].
  split; [reflexivity|]. split; [|split].
  - intros e [He|(dests & Hd & He)].
    + now rewrite He in Hend.
    + now rewrite Hd, He in Hend.
  - intros (dests & Hd & He). now rewrite Hd, He in Hend.
  - unfold Router.process_message.
    destruct (find_destinations (rules eng) rk) as [dests|e];
      [destruct (forward_each (services eng) dests msg
                   (messages_routed (router_stats eng))) as [routed' [u|e]]|];
      cbv zeta;
      destruct (redis_client eng) as [r|]; try destruct (redis_reachable r);
      reflexivity.
Qed.

Lemma reachable_log_bounded (eng : engine) :
  reachable_engine eng -> length (message_log eng) <= 1000.
Proof.
  induction 1 as [rs svs client|now rk message eng _ IH|p ds eng _ IH].
  - unfold init. cbn [message_log length]. lia.
  - destruct message as [| | | | |msg];
      try (unfold Router.process_message; cbn [fst message_log]; exact IH).
    destruct (process_message_object now rk msg eng)
      as (entry & routed & errs & Hlog & _).
    rewrite Hlog. rewrite length_app, length_drop.
    change (length [entry]) with 1. lia.
  - exact IH.
Qed.

(** C7. The log of a router never has more than 1000 entries; a call
    on a log that has room appends the entry, and a call on a full log
    drops the oldest entry and appends the new one, so that the 1000
    most recent entries stay in the order of arrival. *)
Theorem message_log_bounded (eng : engine) :
  reachable_engine eng ->
  length (message_log eng) <= 1000 /\
  forall now rk msg,
    let eng' := fst (process_message now rk (JObj msg) eng) in
    exists entry,
      length (message_log eng') <= 1000 /\
      (length (message_log eng) < 1000 ->
       message_log eng' = message_log eng ++ [entry]) /\
      (length (message_log eng) = 1000 ->
       message_log eng' = drop 1 (message_log eng) ++ [entry] /\
       length (message_log eng') = 1000).
Proof.
  intros Hreach. split; [now apply reachable_log_bounded|].
  intros now rk msg. cbv zeta.
  destruct (process_message_object now rk msg eng)
    as (entry & routed & errs & Hlog & _).
  exists entry. split.
  { apply reachable_log_bounded. now constructor. }
  rewrite Hlog. split.
  - intros Hlt. replace (length (message_log eng) + 1 - 1000) with 0 by lia.
    reflexivity.
  - intros Hfull. rewrite Hfull. change (1000 + 1 - 1000) with (1000 + 1 - 1000).
    replace (1000 + 1 - 1000) with 1 by lia.
    split; [reflexivity|].
    rewrite length_app, length_drop, Hfull. change (length [entry]) with 1.
    lia.
Qed.

End RouterFacts.

(** ** The router on sample data *)

Lemma process_message_catches_witness :
  exists entry,
    message_log (fst (Router.process_message Sample.console "2024-01-01T09:00:02"
                        (JNum 5) (JObj Sample.admission) Sample.idle))
      = [entry] /\
    entry_status entry = error /\
    entry_error entry = Some "'int' object has no attribute 'split'".
Proof.
  destruct (process_message_catches Sample.console "2024-01-01T09:00:02"
              (JNum 5) Sample.admission Sample.idle)
    as (entry & _ & Hlog & _ & _ & Herr & _).
  exists entry. split.
  - apply Hlog. cbn [Sample.idle init message_log length]. lia.
  - destruct (Herr (AttributeError "'int' object has no attribute 'split'")
                (or_introl eq_refl)) as (Hs & He & _).
    split; [exact Hs|exact He].
Defined.

Lemma fed_reachable (n : nat) :
  Spec.reachable_engine Sample.console (Sample.fed n).
Proof.
  induction n as [|n IH].
  - apply Spec.engine_init.
  - cbn [Sample.fed]. now apply Spec.engine_process.
Qed.

Lemma message_log_bounded_witness :
  length (message_log (Sample.fed 1001)) <= 1000.
Proof.
  exact (proj1 (message_log_bounded Sample.console (Sample.fed 1001)
                  (fed_reachable 1001))).
Defined.

(** After 1001 admissions the log holds the last 1000: the one stamped
    2 is the oldest, the one stamped 1001 the newest. *)
Lemma log_after_1001_messages :
  length (message_log (Sample.fed 1001)) = 1000 /\
  option_map timestamp (head (message_log (Sample.fed 1001))) = Some "2Z" /\
  option_map timestamp (last (message_log (Sample.fed 1001))) = Some "1001Z" /\
  messages_received (router_stats (Sample.fed 1001)) = 1001%Z /\
  messages_routed (router_stats (Sample.fed 1001)) = 5005%Z.
Proof. vm_compute. repeat split. Qed.

(** ** Publishing *)

Section PublishFacts.

Variable adapt_value : json -> option string.
Variable repr_container : json -> string.
Variable svc : service.

Abbreviation post := (FhirApp.create_resource adapt_value repr_container svc).
Abbreviation put := (FhirApp.update_resource repr_container svc).

(** Without a channel [publish_event] returns at once. *)
Lemma publish_without_channel (env : event_env) (event_type : string)
    (resource : dict) :
  publish_event repr_container svc env event_type resource None
  = (None, Ok tt).
Proof. reflexivity. Qed.

(** C8, as the code has it. A service that has no channel, because the
    broker could not be reached when it started, publishes nothing and
    raises nothing: a create or an update that the store accepts
    answers with the stored document. Whatever becomes of the publish,
    the table after the request is the table the store operation left. *)
Theorem publish_failure_keeps_write (senv : store_env) (eenv : event_env)
    (rtype rid : string) (d : dict) (st : FhirApp.app_state) :
  (FhirApp.broker st = None ->
   (forall tbl' doc,
      create_resource adapt_value svc senv rtype d (FhirApp.fhir_resources st)
        = (tbl', Ok doc) ->
      post senv eenv rtype (JObj d) st
        = (FhirApp.mk_app tbl' None,
           Ok (FhirApp.mk_response 201 (JObj doc)))) /\
   (forall tbl' doc,
      update_resource senv rtype rid d (FhirApp.fhir_resources st)
        = (tbl', Ok doc) ->
      put senv eenv rtype rid (JObj d) st
        = (FhirApp.mk_app tbl' None,
           Ok (FhirApp.mk_response 200 (JObj doc))))) /\
  FhirApp.fhir_resources (fst (post senv eenv rtype (JObj d) st))
    = fst (create_resource adapt_value svc senv rtype d
             (FhirApp.fhir_resources st)) /\
  FhirApp.fhir_resources (fst (put senv eenv rtype rid (JObj d) st))
    = fst (update_resource senv rtype rid d (FhirApp.fhir_resources st)).
Proof.
  split; [|split].
  - intros Hnone. split; intros tbl' doc Hop.
    + unfold FhirApp.create_resource. rewrite Hop, Hnone. reflexivity.
    + unfold FhirApp.update_resource. rewrite Hop, Hnone. reflexivity.
  - unfold FhirApp.create_resource.
    destruct (create_resource _ _ _ _ _ _) as [tbl' [doc|e]]; [|reflexivity].
    now destruct (publish_event _ _ _ _ _ _) as [ch [u|e]].
  - unfold FhirApp.update_resource.
    destruct (update_resource _ _ _ _ _) as [tbl' [doc|e]]; [|reflexivity].
    now destruct (publish_event _ _ _ _ _ _) as [ch [u|e]].
Qed.

End PublishFacts.

(** C8, as the document has it, fails when the service holds a channel
    and the broker has gone away since: the patient is stored, the
    publish raises, and the request ends with that exception instead of
    the stored document. *)
Lemma publish_failure_reaches_caller :
  exists row,
    FhirApp.create_resource Sample.strings_only Sample.no_text Sample.ehr
      Sample.monday Sample.event_stamp "Patient" (JObj Sample.ann)
      Sample.broker_down
    = (FhirApp.mk_app [row] (Some (mk_channel false [])),
       Raise (AMQPError "broker unreachable")) /\
    id row = Sample.ann_id /\
    publish_event Sample.no_text Sample.ehr Sample.event_stamp "created"
      (data row) (Some (mk_channel false []))
    = (Some (mk_channel false []), Raise (AMQPError "broker unreachable")).
Proof. eexists. vm_compute. repeat split. Qed.

Lemma publish_failure_keeps_write_witness :
  exists doc,
    FhirApp.create_resource Sample.strings_only Sample.no_text Sample.ehr
      Sample.monday Sample.event_stamp "Patient" (JObj Sample.ann)
      Sample.no_broker
    = (FhirApp.mk_app Sample.one_patient None,
       Ok (FhirApp.mk_response 201 (JObj doc))).
Proof.
  destruct (publish_failure_keeps_write Sample.strings_only Sample.no_text
              Sample.ehr Sample.monday Sample.event_stamp "Patient"
              Sample.ann_id Sample.ann Sample.no_broker) as [Hnone _].
  destruct (Hnone eq_refl) as [Hpost _].
  eexists. apply Hpost. reflexivity.
Defined.

(** ** The capability statement *)

Lemma advertised_resources_eq (svc : service) (now : string) :
  Spec.advertised_resources (get_capability_statement svc now)
  = map capability_resource (supported_resources svc).
Proof. reflexivity. Qed.

(** C9, as the code has it. The statement lists the supported types, in
    their order, and gives each the interactions [read], [vread],
    [update], [delete], [create] and [search-type]. Among the search
    parameters it gives each are [identifier], [patient] and [status],
    by which the query engine filters. *)
Theorem capability_statement_lists (container_text : json -> string)
    (svc : service) (now : string) :
  let entries :=
    Spec.advertised_resources (get_capability_statement svc now) in
  map Spec.advertised_type entries = supported_resources svc /\
  (forall entry, In entry entries ->
     Spec.advertised_interactions entry
       = ["read"; "vread"; "update"; "delete"; "create"; "search-type"] /\
     forall key, In key ["identifier"; "patient"; "status"] ->
       In key (Spec.advertised_search_params entry) /\
       In key Spec.recognized /\
       ~ Spec.ignored container_text key).
Proof.
  cbv zeta. rewrite advertised_resources_eq.
  split.
  - rewrite map_map.
    induction (supported_resources svc) as [|rt rts IH];
      [reflexivity|]. cbn [map]. rewrite IH. reflexivity.
  - intros entry Hin. apply in_map_iff in Hin as (rt & <- & _).
    split; [reflexivity|].
    intros key Hkey. split; [|split].
    + simpl in *. tauto.
    + unfold Spec.recognized. simpl in *. tauto.
    + intros Hign.
      assert (exists value doc,
                add_filter container_text
                  [mk_row "x" "T" "1" doc "" ""] (key, Some value) = []) as
        (value & doc & Hsome).
      { simpl in Hkey. destruct Hkey as [<-|[<-|[<-|[]]]];
          exists "v", []; reflexivity. }
      rewrite Hign in Hsome. discriminate.
Qed.

(** C9, as the document has it, fails on both lists. The entry of
    [Patient] advertises [vread] and names the search [search-type];
    it advertises [_id], which the query engine skips, and leaves out
    [subject], [category] and [code], by which the engine filters. *)
Lemma capability_statement_differs :
  exists entry,
    head (Spec.advertised_resources
            (get_capability_statement Sample.ehr "2024-01-01T09:00:00"))
      = Some entry /\
    Spec.advertised_type entry = "Patient" /\
    Spec.advertised_interactions entry
      <> ["read"; "update"; "delete"; "create"; "search"] /\
    In "vread" (Spec.advertised_interactions entry) /\
    ~ In "search" (Spec.advertised_interactions entry) /\
    Spec.advertised_search_params entry <> Spec.recognized /\
    In "_id" (Spec.advertised_search_params entry) /\
    Spec.ignored Sample.no_text "_id" /\
    ~ In "subject" (Spec.advertised_search_params entry) /\
    ~ Spec.ignored Sample.no_text "subject".
Proof.
  eexists. split; [reflexivity|]. split; [reflexivity|].
  split; [discriminate|]. split; [simpl; tauto|].
  split. { simpl. intros H. repeat destruct H as [H|H]; discriminate || tauto. }
  split; [discriminate|]. split; [simpl; tauto|].
  split. { apply unrecognized_ignored. now left. }
  split. { simpl. intros H. repeat destruct H as [H|H]; discriminate || tauto. }
  intros Hign.
  specialize (Hign "v" [mk_row "x" "T" "1" [] "" ""]). discriminate.
Qed.

Lemma capability_statement_lists_witness :
  map Spec.advertised_type
    (Spec.advertised_resources
       (get_capability_statement Sample.ehr "2024-01-01T09:00:00"))
  = ["Patient"; "Observation"; "Encounter"].
Proof.
  exact (proj1 (capability_statement_lists Sample.no_text Sample.ehr
                  "2024-01-01T09:00:00")).
Defined.

(* ================================================================== *)
(** * Further properties of the store *)
(* ================================================================== *)


Lemma find_filter_same {A : Type} (p q : A -> bool) (l : list A) :
  (forall x, p x = true -> q x = true) ->
  List.find p (List.filter q l) = List.find p l.
Proof.
  intros H. induction l as [|x l IH]; simpl; auto.
  destruct (p x) eqn:Hp.
  - rewrite (H x Hp). simpl. now rewrite Hp.
  - destruct (q x); simpl; [rewrite Hp|]; exact IH.
Qed.

Lemma find_app_Some {A : Type} (p : A -> bool) (l k : list A) (x : A) :
  List.find p l = Some x -> List.find p (l ++ k) = Some x.
Proof.
  induction l as [|y l IH]; simpl; [discriminate|].
  now destruct (p y).
Qed.

Lemma is_resource_id (rt rid : string) (r : row) :
  is_resource rt rid r = true -> id r = rid.
Proof.
  unfold is_resource. intros H. apply andb_true_iff in H as [_ H].
  now apply String.eqb_eq.
Qed.





Lemma length_filter_one (tbl : table) (r : row) :
  NoDup (map id tbl) -> In r tbl ->
  length tbl
  = S (length (List.filter (fun x => negb (String.eqb (id x) (id r))) tbl)).
Proof.
  induction tbl as [|z tbl IH]; simpl; [tauto|].
  intros Hnd Hin. apply NoDup_cons in Hnd as [Hz Hnd].
  rewrite list_elem_of_In in Hz.
  destruct Hin as [->|Hin].
  - rewrite String.eqb_refl. simpl. f_equal.
    clear IH. induction tbl as [|y tbl IH]; simpl; auto.
    apply NoDup_cons in Hnd as [_ Hnd]. simpl in Hz.
    destruct (String.eqb (id y) (id r)) eqn:E.
    + apply String.eqb_eq in E. tauto.
    + simpl. f_equal. apply IH; tauto.
  - destruct (String.eqb (id z) (id r)) eqn:E.
    + apply String.eqb_eq in E. exfalso. apply Hz. rewrite E.
      now apply in_map.
    + simpl. f_equal. now apply IH.
Qed.

Section StoreFrames.

Variable adapt_value : json -> option string.
Variable svc : service.

Abbreviation reachable := (Spec.reachable adapt_value svc).

(** X2. In a table the service can reach, a delete that succeeds takes
    away one row and no more, and what is read under any other id is
    what was read before. *)
Theorem delete_removes_one (rtype rid : string) (tbl tbl' : table) :
  reachable tbl ->
  delete_resource rtype rid tbl = (tbl', Ok tt) ->
  length tbl = S (length tbl') /\
  forall rtype' rid', rid' <> rid ->
    read_resource rtype' rid' tbl' = read_resource rtype' rid' tbl.
Proof.
  intros Hreach. unfold delete_resource.
  destruct (first_row rtype rid tbl) as [r|] eqn:Hr; [|discriminate].
  intros [= <-].
  destruct (first_row_is_resource _ _ _ _ Hr) as (Hin & _ & Hid).
  split.
  - apply length_filter_one; auto.
    now apply (reachable_keys_unique adapt_value svc).
  - intros rtype' rid' Hne. unfold read_resource, first_row.
    rewrite find_filter_same; auto.
    intros x Hx. apply is_resource_id in Hx.
    apply negb_true_iff, String.eqb_neq. congruence.
Qed.

(** X3. A create never touches what is stored: a resource that could be
    read before reads the same afterwards, the table grows by one row
    when the create returns, and is as it was when the create raises. *)
Theorem create_keeps_existing (env : store_env) (rtype : string) (d : dict)
    (tbl : table) :
  let run := create_resource adapt_value svc env rtype d tbl in
  (forall rtype' rid' doc,
     read_resource rtype' rid' tbl = Ok doc ->
     read_resource rtype' rid' (fst run) = Ok doc) /\
  (forall doc, snd run = Ok doc -> length (fst run) = S (length tbl)) /\
  (forall e, snd run = Raise e -> fst run = tbl).
Proof.
  cbv zeta. split; [|split].
  - intros rtype' rid' doc.
    destruct (create_resource_table adapt_value svc env rtype d tbl)
      as [->|(r & -> & _)]; auto.
    unfold read_resource, first_row.
    destruct (List.find (is_resource rtype' rid') tbl) as [x|] eqn:Hx;
      [|discriminate].
    now rewrite (find_app_Some _ _ _ _ Hx).
  - unfold create_resource. intros doc.
    destruct (negb _); [discriminate|].
    destruct (bind_varchar _ _); [|discriminate].
    destruct (existsb _ tbl); [discriminate|].
    intros _. cbn [fst]. rewrite length_app. simpl. lia.
  - unfold create_resource. intros e.
    destruct (negb _); [reflexivity|].
    destruct (bind_varchar _ _); [|reflexivity].
    destruct (existsb _ tbl); [reflexivity|discriminate].
Qed.

End StoreFrames.

(** X4. An update changes one resource: what is read under any other id
    is what was read before, whether the update returns or raises, and
    an update that raises leaves the table as it was. *)
Theorem update_keeps_others (env : store_env) (rtype rid : string)
    (d : dict) (tbl : table) :
  let run := update_resource env rtype rid d tbl in
  (forall rtype' rid', rid' <> rid ->
     read_resource rtype' rid' (fst run) = read_resource rtype' rid' tbl) /\
  (forall e, snd run = Raise e -> fst run = tbl).
Proof.
  cbv zeta. unfold update_resource.
  destruct (first_row rtype rid tbl) as [r|] eqn:Hr; [|now split].
  destruct (int_of_str (version_id r)) as [n|]; [|now split].
  cbn [fst snd]. split; [|discriminate].
  intros rtype' rid' Hne.
  apply first_row_is_resource in Hr as (_ & _ & Hid).
  unfold read_resource, first_row, flush_update.
  rewrite find_map_pres.
  - destruct (List.find (is_resource rtype' rid') tbl) as [x|] eqn:Hx;
      [|reflexivity].
    apply find_some in Hx as [_ Hx]. apply is_resource_id in Hx.
    simpl. assert (String.eqb (id x) (id r) = false) as ->; [|reflexivity].
    apply String.eqb_neq. congruence.
  - intros x. unfold is_resource.
    now destruct (String.eqb (id x) (id r)).
Qed.



Lemma delete_removes_one_witness :
  length Sample.one_patient
  = S (length (fst (delete_resource "Patient" Sample.ann_id
                      Sample.one_patient))).
Proof.
  exact (proj1 (delete_removes_one Sample.strings_only Sample.ehr
                  "Patient" Sample.ann_id Sample.one_patient _
                  one_patient_reachable eq_refl)).
Defined.

Section StoreInvariant.

Variable adapt_value : json -> option string.
Variable svc : service.

Abbreviation reachable := (Spec.reachable adapt_value svc).





End StoreInvariant.



(** ** Pages *)


Section Pages.

Variable container_text : json -> string.



(** X10. An empty value for [subject] is not ignored: it keeps the rows
    that have a subject reference and drops those that have none; the
    value [%] does the same. *)
Theorem empty_subject_keeps_referenced (query : list row) :
  add_filter container_text query ("subject", Some "")
    = List.filter (View.has_reference container_text) query /\
  add_filter container_text query ("subject", Some "%")
    = List.filter (View.has_reference container_text) query.
Proof.
  assert (forall s, Sql.like ["%"%char; "%"%char] s = true) as Hany.
  { intros s. apply like_percent. exists [], s. split; [reflexivity|].
    apply like_percent. exists s, []. now rewrite app_nil_r. }
  assert (forall s, Sql.like ["%"%char; "%"%char; "%"%char] s = true) as Hany3.
  { intros s. apply like_percent. exists [], s. split; [reflexivity|].
    apply Hany. }
  split; unfold add_filter; cbn [fst snd];
    change (String.prefix "_" "subject") with false; cbv iota;
    change (String.eqb "subject" "patient") with false;
    change (String.eqb "subject" "subject") with true; cbv iota;
    apply List.filter_ext; intros r;
    unfold View.has_reference; rewrite subject_reference_text;
    destruct (Spec.reference_text container_text (data r)) as [s|];
    try reflexivity; unfold Sql.text_contains, Sql.holds.
  - change (list_ascii_of_string ("%" ++ "" ++ "%")%string)
      with ["%"%char; "%"%char]. now rewrite Hany.
  - change (list_ascii_of_string ("%" ++ "%" ++ "%")%string)
      with ["%"%char; "%"%char; "%"%char]. now rewrite Hany3.
Qed.

End Pages.


(* ================================================================== *)
(** * From the publisher to the router *)
(* ================================================================== *)

Lemma split_cons (sep : ascii) (s : string) :
  exists seg segs, split sep s = seg :: segs.
Proof.
  induction s as [|c s (seg & segs & IH)]; simpl; eauto.
  destruct (Ascii.eqb c sep); eauto. rewrite IH. eauto.
Qed.

(** Splitting at a separator splits the halves. *)
Lemma split_app (sep : ascii) (a b : string) :
  split sep (a ++ String sep b)%string = split sep a ++ split sep b.
Proof.
  induction a as [|c a IH]; simpl.
  - now rewrite Ascii.eqb_refl.
  - destruct (Ascii.eqb c sep); rewrite IH; [reflexivity|].
    now destruct (split_cons sep a) as (seg & segs & ->).
Qed.

Lemma split_dot_free (s : string) :
  View.dot_free s -> split "." s = [s].
Proof.
  unfold View.dot_free. induction s as [|c s IH]; simpl; auto.
  intros H. destruct (Ascii.eqb_spec c ".") as [->|Hc]; [tauto|].
  rewrite IH by tauto. reflexivity.
Qed.

Lemma lower_ascii_not_dot (c : ascii) :
  c <> "."%char -> lower_ascii c <> "."%char.
Proof.
  destruct c as [[] [] [] [] [] [] [] []]; vm_compute; congruence.
Qed.

Lemma lower_dot_free (s : string) :
  View.dot_free s -> View.dot_free (lower s).
Proof.
  unfold View.dot_free, lower. induction s as [|c s IH]; simpl; auto.
  intros H [Hc|Hin].
  - apply (lower_ascii_not_dot c); auto.
  - apply IH; auto.
Qed.

(** The destinations under the start-up rules, rule by rule. *)
Lemma default_destinations (topic d : string) :
  d ∈ _find_destinations ROUTING_RULES topic <->
  exists pattern dests,
    In (pattern, dests) ROUTING_RULES /\
    Spec.pattern_matches topic pattern /\ In d dests.
Proof.
  unfold _find_destinations. rewrite fold_destinations. split.
  - intros [H|(p & ds & Hin & Hm & Hd)]; [set_solver|].
    apply matches_pattern_iff in Hm. eauto.
  - intros (p & ds & Hin & Hm & Hd). right.
    apply matches_pattern_iff in Hm. eauto.
Qed.

Lemma create_raise_unchanged adapt_value svc env rtype d (tbl : table) e :
  snd (create_resource adapt_value svc env rtype d tbl) = Raise e ->
  create_resource adapt_value svc env rtype d tbl = (tbl, Raise e).
Proof.
  unfold create_resource.
  destruct (negb _); [now intros [= <-]|].
  destruct (bind_varchar _ _); [|now intros [= <-]].
  destruct (existsb _ tbl); [now intros [= <-]|discriminate].
Qed.

Lemma update_raise_unchanged env rtype rid d (tbl : table) e :
  snd (update_resource env rtype rid d tbl) = Raise e ->
  update_resource env rtype rid d tbl = (tbl, Raise e).
Proof.
  unfold update_resource.
  destruct (first_row rtype rid tbl) as [r|]; [|now intros [= <-]].
  destruct (int_of_str _); [discriminate|now intros [= <-]].
Qed.

Section PublishedEvents.

Variable adapt_value : json -> option string.
Variable repr_container : json -> string.
Variable svc : service.

Abbreviation post := (FhirApp.create_resource adapt_value repr_container svc).
Abbreviation put := (FhirApp.update_resource repr_container svc).

(** What [publish_event] does for a document the store has stamped. *)
Lemma publish_stamped (env : event_env) (event_type rtype : string)
    (doc : dict) (ch : channel) :
  dict_get "resourceType" doc = Some (JStr rtype) ->
  broker_reachable ch = true ->
  publish_event repr_container svc env event_type doc (Some ch)
  = (Some (mk_channel true
             (published ch ++
              [((service_name svc ++ "." ++ lower rtype ++ "." ++ event_type)%string,
                [("specversion", JStr "1.0");
                 ("type", JStr ("org.hl7.fhir.r4." ++ rtype ++ "."
                                ++ event_type)%string);
                 ("source", JStr ("/" ++ service_name svc)%string);
                 ("id", JStr (event_uuid4 env));
                 ("time", JStr (event_utcnow env ++ "Z")%string);
                 ("datacontenttype", JStr "application/fhir+json");
                 ("data", JObj doc)])])),
     Ok tt).
Proof.
  intros Ht Hup. unfold publish_event, dict_get_value.
  rewrite Ht, Hup. reflexivity.
Qed.

(** X11. With the broker in reach, a create or update that the store
    accepts publishes one event, after those already published: its
    topic is [<service>.<type in lower case>.created] or [.updated], its
    data is the document stored and returned, its source the service.
    A request that the store refuses publishes nothing. *)
Theorem accepted_write_publishes_one_event (senv : store_env)
    (eenv : event_env) (rtype rid : string) (d : dict)
    (tbl : table) (ch : channel) :
  broker_reachable ch = true ->
  let st := FhirApp.mk_app tbl (Some ch) in
  let event action doc : string * dict :=
    ((service_name svc ++ "." ++ lower rtype ++ "." ++ action)%string,
     [("specversion", JStr "1.0");
      ("type", JStr ("org.hl7.fhir.r4." ++ rtype ++ "." ++ action)%string);
      ("source", JStr ("/" ++ service_name svc)%string);
      ("id", JStr (event_uuid4 eenv));
      ("time", JStr (event_utcnow eenv ++ "Z")%string);
      ("datacontenttype", JStr "application/fhir+json");
      ("data", JObj doc)]) in
  (forall tbl' doc,
     create_resource adapt_value svc senv rtype d tbl = (tbl', Ok doc) ->
     post senv eenv rtype (JObj d) st
     = (FhirApp.mk_app tbl'
          (Some (mk_channel true (published ch ++ [event "created" doc]))),
        Ok (FhirApp.mk_response 201 (JObj doc)))) /\
  (forall tbl' doc,
     update_resource senv rtype rid d tbl = (tbl', Ok doc) ->
     put senv eenv rtype rid (JObj d) st
     = (FhirApp.mk_app tbl'
          (Some (mk_channel true (published ch ++ [event "updated" doc]))),
        Ok (FhirApp.mk_response 200 (JObj doc)))) /\
  (forall e,
     snd (create_resource adapt_value svc senv rtype d tbl) = Raise e ->
     post senv eenv rtype (JObj d) st = (st, Raise e)) /\
  (forall e,
     snd (update_resource senv rtype rid d tbl) = Raise e ->
     put senv eenv rtype rid (JObj d) st = (st, Raise e)).
Proof.
  intros Hup. cbv beta zeta. split; [|split; [|split]].
  - intros tbl' doc Hc. unfold FhirApp.create_resource.
    cbn [FhirApp.fhir_resources FhirApp.broker]. rewrite Hc.
    assert (dict_get "resourceType" doc = Some (JStr rtype)) as Ht.
    { unfold create_resource in Hc.
      destruct (negb _); [discriminate|].
      destruct (bind_varchar _ _); [|discriminate].
      destruct (existsb _ tbl); [discriminate|].
      injection Hc as _ <-.
      rewrite dict_get_set_ne by discriminate. apply dict_get_set_eq. }
    now rewrite (publish_stamped eenv "created" rtype doc ch Ht Hup).
  - intros tbl' doc Hu. unfold FhirApp.update_resource.
    cbn [FhirApp.fhir_resources FhirApp.broker]. rewrite Hu.
    assert (dict_get "resourceType" doc = Some (JStr rtype)) as Ht.
    { unfold update_resource in Hu.
      destruct (first_row rtype rid tbl); [|discriminate].
      destruct (int_of_str _); [|discriminate].
      injection Hu as _ <-.
      rewrite dict_get_set_ne by discriminate. apply dict_get_set_eq. }
    now rewrite (publish_stamped eenv "updated" rtype doc ch Ht Hup).
  - intros e He. unfold FhirApp.create_resource.
    cbn [FhirApp.fhir_resources FhirApp.broker].
    now rewrite (create_raise_unchanged _ _ _ _ _ _ _ He).
  - intros e He. unfold FhirApp.update_resource.
    cbn [FhirApp.fhir_resources FhirApp.broker].
    now rewrite (update_raise_unchanged _ _ _ _ _ _ He).
Qed.

End PublishedEvents.

(** X12. With the rules of start-up, an [updated] event reaches no
    system: for a service and a resource type that have no dot in their
    names, the topic [<service>.<type>.updated] matches no rule. *)
Theorem updated_events_reach_no_one (svc : service) (rtype : string) :
  View.dot_free (service_name svc) ->
  View.dot_free rtype ->
  forall d,
    ~ d ∈ _find_destinations ROUTING_RULES
            (service_name svc ++ "." ++ lower rtype ++ "." ++ "updated")%string.
Proof.
  intros Hname Htype d.
  assert (split "." (service_name svc ++ "." ++ lower rtype ++ "."
                     ++ "updated")%string
          = [service_name svc; lower rtype; "updated"]) as Hsplit.
  { change (split "." (service_name svc
                       ++ String "." (lower rtype ++ String "." "updated"))%string
            = [service_name svc; lower rtype; "updated"]).
    rewrite !split_app, (split_dot_free _ Hname),
      (split_dot_free _ (lower_dot_free _ Htype)).
    reflexivity. }
  rewrite default_destinations.
  intros (p & ds & Hin & [Hlen Hseg] & _).
  rewrite Hsplit in Hlen, Hseg.
  simpl in Hin.
  repeat (destruct Hin as [[= <- <-]|Hin];
          [try discriminate Hlen;
           specialize (Hseg 2 "updated" _ eq_refl eq_refl
                         ltac:(discriminate));
           discriminate Hseg
          |]).
  contradiction.
Qed.

Lemma updated_events_reach_no_one_witness :
  ~ "ehr" ∈ _find_destinations ROUTING_RULES "ehr.patient.updated".
Proof.
  refine (updated_events_reach_no_one Sample.ehr "Patient" _ _ "ehr");
    unfold View.dot_free; simpl; intros H;
    repeat destruct H as [H|H]; discriminate || assumption.
Defined.

(** Decide the rules that match a topic that is known. *)
Ltac decide_rules Hin Hm :=
  simpl in Hin;
  repeat (destruct Hin as [[= <- <-]|Hin];
          [apply matches_pattern_iff in Hm; try discriminate Hm|]);
  try contradiction.

(** X13. The ADT events of the patient administration system carry no
    [resourceType], so they go out under [pas.unknown.adt.aNN] with the
    type [org.hl7.fhir.r4.None.adt.aNN]; with the rules of start-up the
    router hands each to the five clinical systems. *)
Theorem adt_events_reach_every_system (repr_container : json -> string)
    (env : event_env) (encounter patient : dict)
    (new_location_id now : string) (ch : channel)
    (event_type : string) (payload : dict) :
  broker_reachable ch = true ->
  In (event_type, payload)
     [("adt.a01", Pas.admit_event encounter now);
      ("adt.a02", Pas.transfer_event encounter new_location_id now);
      ("adt.a03", Pas.discharge_event encounter now);
      ("adt.a04", Pas.register_event patient now)] ->
  exists event,
    publish_event repr_container Pas.service env event_type payload (Some ch)
    = (Some (mk_channel true
               (published ch
                ++ [(("pas.unknown." ++ event_type)%string, event)])),
       Ok tt) /\
    dict_get "type" event
      = Some (JStr ("org.hl7.fhir.r4.None." ++ event_type)%string) /\
    dict_get "data" event = Some (JObj payload) /\
    forall d,
      d ∈ _find_destinations ROUTING_RULES
            ("pas.unknown." ++ event_type)%string
      <-> In d View.adt_destinations.
Proof.
  intros Hup Hcall. simpl in Hcall.
  destruct Hcall as [[= <- <-]|[[= <- <-]|[[= <- <-]|[[= <- <-]|[]]]]];
    (eexists; split;
     [unfold publish_event; rewrite Hup; reflexivity|];
     split; [reflexivity|]; split; [reflexivity|];
     intros d; rewrite default_destinations; split;
     [intros (p & ds & Hin & Hm & Hd); decide_rules Hin Hm; exact Hd
     |intros Hd; exists "pas.*.adt.*", View.adt_destinations;
      split; [simpl; auto|]; split; [|exact Hd];
      apply matches_pattern_iff; reflexivity]).
Qed.

Lemma adt_events_reach_every_system_witness :
  exists event,
    publish_event Sample.no_text Pas.service Sample.event_stamp "adt.a01"
      (Pas.admit_event (Fixtures.encounter "enc-1" "Location/loc-er")
         "2024-01-01T09:00:00")
      (Some (mk_channel true []))
    = (Some (mk_channel true [("pas.unknown.adt.a01", event)]), Ok tt).
Proof.
  destruct (adt_events_reach_every_system Sample.no_text Sample.event_stamp
              (Fixtures.encounter "enc-1" "Location/loc-er") []
              "loc-icu" "2024-01-01T09:00:00" (mk_channel true [])
              "adt.a01" _ eq_refl (or_introl eq_refl))
    as (event & Hp & _).
  exists event. exact Hp.
Defined.

(** X14. The rule [billing.charge.posted] never fires for what billing
    publishes: an event sent under the event type [charge.posted] has
    the topic [billing.<kind>.charge.posted], whose first segment is
    [billing] and which has four segments or more, and with the rules
    of start-up it reaches no system. *)
Theorem charge_events_reach_no_one (repr_container : json -> string)
    (env : event_env) (resource : dict) (ch ch' : channel) :
  publish_event repr_container Billing.service env "charge.posted" resource
    (Some ch) = (Some ch', Ok tt) ->
  exists topic event kind,
    published ch' = published ch ++ [(topic, event)] /\
    topic = ("billing." ++ kind ++ ".charge.posted")%string /\
    split "." topic = "billing" :: split "." kind ++ ["charge"; "posted"] /\
    (4 <= length (split "." topic)) /\
    forall d, ~ d ∈ _find_destinations ROUTING_RULES topic.
Proof.
  unfold publish_event.
  assert (forall rt,
            let topic := ("billing" ++ "." ++ rt ++ "." ++ "charge.posted")%string in
            split "." topic = "billing" :: split "." rt ++ ["charge"; "posted"] /\
            4 <= length (split "." topic) /\
            forall d, ~ d ∈ _find_destinations ROUTING_RULES topic) as Htopic.
  { intros rt. cbv zeta.
    assert (split "." ("billing" ++ "." ++ rt ++ "." ++ "charge.posted")%string
            = "billing" :: split "." rt ++ ["charge"; "posted"]) as Hsplit.
    { change (split "." ("billing" ++ String "." (rt ++ String "." "charge.posted"))%string
              = ["billing"] ++ split "." rt ++ ["charge"; "posted"]).
      rewrite !split_app. reflexivity. }
    split; [exact Hsplit|].
    rewrite Hsplit.
    destruct (split_cons "." rt) as (seg & segs & Hrt). rewrite Hrt.
    split. { simpl. rewrite length_app. simpl. lia. }
    intros d.
    rewrite default_destinations.
    intros (p & ds & Hin & [Hlen Hseg] & _).
    rewrite Hsplit, Hrt in Hlen, Hseg. simpl in Hin.
    destruct Hin as [[= <- <-]|Hin].
    - specialize (Hseg 0 "billing" "pas" eq_refl eq_refl ltac:(discriminate)).
      discriminate Hseg.
    - repeat (destruct Hin as [[= <- <-]|Hin];
              [simpl in Hlen; rewrite length_app in Hlen; simpl in Hlen; lia|]).
      contradiction. }
  destruct (dict_get "resourceType" resource) as [[| | |s| |]|];
    try discriminate;
    (destruct (broker_reachable ch); [|discriminate];
     intros [= <-]; cbn [published];
     eexists _, _, _; split; [reflexivity|];
     split; [reflexivity|]; apply Htopic).
Qed.

Lemma charge_events_reach_no_one_witness :
  exists topic,
    topic = "billing.chargeitem.charge.posted"%string /\
    forall d, ~ d ∈ _find_destinations ROUTING_RULES topic.
Proof.
  destruct (charge_events_reach_no_one Sample.no_text Sample.event_stamp
              [("resourceType", JStr "ChargeItem"); ("id", JStr "chg-1")]
              (mk_channel true []) _ eq_refl)
    as (topic & event & kind & Hpub & _ & _ & _ & Hno).
  exists topic. split; [|exact Hno].
  vm_compute in Hpub. now injection Hpub as <- _.
Defined.

(* ================================================================== *)
(** * Further properties of the router *)
(* ================================================================== *)

Lemma rev_last_1000 {A : Type} (log : list A) (e : A) :
  take 1000 (e :: rev log)
  = rev (drop (length log + 1 - 1000) log ++ [e]).
Proof.
  rewrite rev_app_distr. simpl rev. simpl app.
  change (take 1000 (e :: rev log)) with (e :: take 999 (rev log)).
  f_equal. rewrite firstn_rev. do 2 f_equal. lia.
Qed.

Section RouterMore.

Variable print_forward : string -> json -> option string.

Abbreviation process_message := (Router.process_message print_forward).
Abbreviation forward_each := (Router.forward_each print_forward).
Abbreviation _forward_message := (Router._forward_message print_forward).
Abbreviation reachable_engine := (Spec.reachable_engine print_forward).

(** How far the loop over the destinations gets. *)
Lemma forward_each_count (services : list (string * string))
    (dests : list string) (message : dict) (routed : Z) :
  exists k,
    k <= length dests /\
    fst (forward_each services dests message routed)
      = (routed + Z.of_nat k)%Z /\
    (snd (forward_each services dests message routed) = Ok tt ->
     k = length dests).
Proof.
  revert routed. induction dests as [|dest rest IH]; intros routed; simpl.
  - exists 0. rewrite Z.add_0_r. auto.
  - destruct (Router._forward_message print_forward services dest message)
      as [u|e].
    + destruct (IH (routed + 1)%Z) as (k & Hk & Hf & Hok).
      exists (S k). split; [lia|]. split; [rewrite Hf; lia|].
      intros H. now rewrite (Hok H).
    + exists 0. simpl. rewrite Z.add_0_r. split; [lia|].
      split; [reflexivity|discriminate].
Qed.

(** What a call with an object as message leaves behind, in full. *)
Lemma process_message_shape (now : string) (rk : json) (msg : dict)
    (eng : engine) :
  exists dests st err routed errs,
    let entry :=
      mk_entry (now ++ "Z") rk (dict_get_value "type" msg)
        (dict_get_value "source" msg) (dict_get_value "id" msg)
        dests st err in
    fst (process_message now rk (JObj msg) eng)
    = mk_engine
        (drop (length (message_log eng) + 1 - 1000) (message_log eng)
         ++ [entry])
        (mk_stats (messages_received (router_stats eng) + 1) routed errs)
        (rules eng) (services eng)
        match redis_client eng with
        | Some r =>
            if redis_reachable r then
              Some (mk_redis true (take 1000 (entry :: integration_messages r)))
            else Some r
        | None => None
        end /\
    (messages_routed (router_stats eng) <= routed)%Z /\
    (errors (router_stats eng) <= errs <= errors (router_stats eng) + 1)%Z.
Proof.
  unfold Router.process_message.
  destruct (find_destinations (rules eng) rk) as [dests|e].
  - destruct (forward_each_count (services eng) dests msg
                (messages_routed (router_stats eng)))
      as (k & _ & Hk & _).
    destruct (forward_each (services eng) dests msg
                (messages_routed (router_stats eng))) as [routed [u|e]];
      cbv zeta; rewrite keep_last_1000; cbn [fst] in Hk;
      eexists _, _, _, _, _;
      (split; [destruct (redis_client eng) as [r|];
               [destruct (redis_reachable r)|]; reflexivity
              |lia]).
  - cbv zeta; rewrite keep_last_1000.
    eexists _, _, _, _, _.
    split; [destruct (redis_client eng) as [r|];
            [destruct (redis_reachable r)|]; reflexivity
           |lia].
Qed.

(** X15. The counters of a router keep these bounds, however it was
    driven: [errors] is between 0 and [messages_received],
    [messages_routed] is not negative, and the log has no more entries
    than messages were received. *)
Theorem router_counters_bounded (eng : engine) :
  reachable_engine eng ->
  (0 <= errors (router_stats eng) <= messages_received (router_stats eng))%Z /\
  (0 <= messages_routed (router_stats eng))%Z /\
  (Z.of_nat (length (message_log eng))
   <= messages_received (router_stats eng))%Z.
Proof.
  induction 1 as [rs svs client|now rk message eng _ IH|p ds eng _ IH].
  - unfold init. cbn. lia.
  - destruct message as [| | | | |msg];
      try (unfold Router.process_message;
           cbn [fst message_log router_stats messages_received
                  messages_routed errors]; lia).
    destruct (process_message_shape now rk msg eng)
      as (dests & st & err & routed & errs & -> & Hr & He).
    cbn [message_log router_stats messages_received messages_routed errors].
    rewrite length_app, length_drop. change (length [_]) with 1. lia.
  - exact IH.
Qed.

(** X16. The loop over the destinations counts a destination as routed
    when [_forward_message] returns, also when it returned because the
    destination has no URL and nothing was forwarded. The destinations
    fall into those for which [_forward_message] returned, in their
    order, and the rest: the counter goes up by the number of the
    former; the rest is empty and the loop returns, or its first
    destination is the one whose [_forward_message] raised, and the loop
    raises that exception. When no destination has a URL the counter
    goes up by all of them, whatever the console does. *)
Theorem forwarding_counts_attempts (services : list (string * string))
    (dests : list string) (message : dict) (routed : Z) :
  (exists returned rest,
     dests = returned ++ rest /\
     (forall dest, In dest returned ->
        Router._forward_message print_forward services dest message
        = Ok tt) /\
     fst (forward_each services dests message routed)
       = (routed + Z.of_nat (length returned))%Z /\
     match rest with
     | [] => snd (forward_each services dests message routed) = Ok tt
     | failing :: _ =>
         exists e,
           Router._forward_message print_forward services failing message
           = Raise e /\
           snd (forward_each services dests message routed) = Raise e
     end) /\
  ((forall dest, In dest dests ->
      List.find (fun kv => String.eqb (fst kv) dest) services = None) ->
   forward_each services dests message routed
   = ((routed + Z.of_nat (length dests))%Z, Ok tt)).
Proof.
  split.
  { revert routed. induction dests as [|dest rest IH]; intros routed.
    - exists [], []. simpl. rewrite Z.add_0_r. repeat split; tauto.
    - cbn [Router.forward_each].
      destruct (Router._forward_message print_forward services dest message)
        as [[]|e] eqn:Hdest.
      + destruct (IH (routed + 1)%Z) as (returned & rest' & -> & Hok & Hf & Hend).
        exists (dest :: returned), rest'. split; [reflexivity|].
        split. { intros d [<-|Hd]; auto. }
        split; [rewrite Hf; cbn [length]; lia|exact Hend].
      + exists [], (dest :: rest). split; [reflexivity|].
        split; [intros d []|].
        split; [cbn [fst length]; lia|].
        exists e. auto. }
  revert routed. induction dests as [|dest rest IH]; intros routed Hno.
  - simpl. now rewrite Z.add_0_r.
  - cbn [Router.forward_each]. unfold Router._forward_message.
    rewrite (Hno dest) by (now left).
    rewrite IH by (intros d Hd; apply Hno; now right).
    f_equal. cbn [length]. lia.
Qed.

(** X17. The Redis list mirrors the log, newest first: when it is the
    log in reverse before a call on an object that reaches the server,
    it is the log in reverse after it, and it never holds more than
    1000 entries. *)
Theorem redis_mirrors_log (now : string) (rk : json) (msg : dict)
    (eng : engine) (r : redis) :
  redis_client eng = Some r ->
  redis_reachable r = true ->
  integration_messages r = rev (message_log eng) ->
  exists r',
    redis_client (fst (process_message now rk (JObj msg) eng)) = Some r' /\
    redis_reachable r' = true /\
    integration_messages r'
      = rev (message_log (fst (process_message now rk (JObj msg) eng))) /\
    length (integration_messages r') <= 1000.
Proof.
  intros Hc Hup Hrev.
  destruct (process_message_shape now rk msg eng)
    as (dests & st & err & routed & errs & -> & _).
  rewrite Hc, Hup. cbn [redis_client message_log].
  eexists. split; [reflexivity|]. cbn [redis_reachable integration_messages].
  split; [reflexivity|]. split.
  - rewrite Hrev. apply rev_last_1000.
  - rewrite length_take. lia.
Qed.

(** X21. With a console that writes every line, a message under a
    string as routing key is logged as completed with the destinations
    of the matching rules, and [messages_routed] goes up by their
    number, each system counted once however many rules name it;
    [errors] stays. *)
Theorem quiet_console_routes_all (now key : string) (msg : dict)
    (eng : engine) :
  View.never_fails print_forward ->
  let dests := elements (_find_destinations (rules eng) key) in
  let eng' := fst (process_message now (JStr key) (JObj msg) eng) in
  NoDup dests /\
  last (message_log eng')
    = Some (mk_entry (now ++ "Z") (JStr key) (dict_get_value "type" msg)
              (dict_get_value "source" msg) (dict_get_value "id" msg)
              dests completed None) /\
  router_stats eng'
    = mk_stats (messages_received (router_stats eng) + 1)
        (messages_routed (router_stats eng) + Z.of_nat (length dests))
        (errors (router_stats eng)).
Proof.
  intros Hquiet. cbv zeta.
  split; [apply NoDup_elements|].
  assert (forall dests routed,
            forward_each (services eng) dests msg routed
            = ((routed + Z.of_nat (length dests))%Z, Ok tt)) as Hall.
  { induction dests as [|dest rest IH]; intros routed.
    - simpl. now rewrite Z.add_0_r.
    - cbn [Router.forward_each]. unfold Router._forward_message.
      rewrite Hquiet.
      assert (match List.find (fun kv => String.eqb (fst kv) dest)
                      (services eng) with
              | Some (_, url) => if String.eqb url "" then Ok tt else Ok tt
              | None => Ok tt
              end = Ok tt) as ->.
      { destruct (List.find _ (services eng)) as [[k url]|]; auto.
        now destruct (String.eqb url ""). }
      rewrite IH. f_equal. cbn [length]. lia. }
  unfold Router.process_message. cbn [find_destinations].
  rewrite Hall. cbv zeta. rewrite keep_last_1000.
  destruct (redis_client eng) as [r|]; [destruct (redis_reachable r)|];
    cbn [fst message_log router_stats]; rewrite last_snoc; auto.
Qed.

End RouterMore.

Lemma router_counters_bounded_witness :
  (0 <= errors (router_stats (Sample.fed 3))
   <= messages_received (router_stats (Sample.fed 3)))%Z.
Proof.
  exact (proj1 (router_counters_bounded Sample.console (Sample.fed 3)
                  (fed_reachable 3))).
Defined.

Lemma forwarding_counts_attempts_witness :
  Router.forward_each (fun _ _ => Some "broken pipe") []
    ["ehr"; "lis"] Sample.admission 7
  = (9%Z, Ok tt).
Proof.
  refine (proj2 (forwarding_counts_attempts (fun _ _ => Some "broken pipe")
                   [] ["ehr"; "lis"] Sample.admission 7) _).
  reflexivity.
Defined.

Lemma redis_mirrors_log_witness :
  exists r',
    redis_client
      (fst (Router.process_message Sample.console "2024-01-01T09:00:02"
              (JStr "lis.diagnosticreport.completed") (JObj Sample.admission)
              (Router.init ROUTING_RULES Sample.targets
                 (Some (mk_redis true []))))) = Some r' /\
    length (integration_messages r') <= 1000.
Proof.
  destruct (redis_mirrors_log Sample.console "2024-01-01T09:00:02"
              (JStr "lis.diagnosticreport.completed") Sample.admission
              (Router.init ROUTING_RULES Sample.targets
                 (Some (mk_redis true [])))
              (mk_redis true []) eq_refl eq_refl eq_refl)
    as (r' & Hc & _ & _ & Hlen).
  exists r'. split; [exact Hc|exact Hlen].
Defined.

Lemma quiet_console_routes_all_witness :
  router_stats
    (fst (Router.process_message Sample.console "2024-01-01T09:00:02"
            (JStr "pas.encounter.adt.a01") (JObj Sample.admission)
            Sample.idle))
  = mk_stats 1
      (0 + Z.of_nat (length (elements (_find_destinations ROUTING_RULES
                                         "pas.encounter.adt.a01"))))
      0.
Proof.
  refine (proj2 (proj2 (quiet_console_routes_all Sample.console
                          "2024-01-01T09:00:02" "pas.encounter.adt.a01"
                          Sample.admission Sample.idle _))).
  intros destination type. reflexivity.
Defined.

(** ** Rules and the administrative endpoints *)

Lemma set_rule_keys (p : string) (ds : list string)
    (rules : list (string * list string)) :
  forall q, In q (map fst (set_rule p ds rules)) <->
            q = p \/ In q (map fst rules).
Proof.
  induction rules as [|[p0 d0] rules IH]; intros q; simpl.
  - split; [intros [<-|[]]; auto|intros [->|[]]; auto].
  - destruct (String.eqb_spec p p0) as [->|Hne]; simpl.
    + split; [intros [<-|H]; auto|intros [->|[<-|H]]; auto].
    + rewrite IH. tauto.
Qed.

Lemma In_set_rule (p : string) (ds : list string)
    (rules : list (string * list string)) (p' : string) (ds' : list string) :
  NoDup (map fst rules) ->
  In (p', ds') (set_rule p ds rules) <->
  (p' = p /\ ds' = ds) \/ (p' <> p /\ In (p', ds') rules).
Proof.
  induction rules as [|[p0 d0] rules IH]; simpl; intros Hnd.
  - split.
    + intros [[= <- <-]|[]]. auto.
    + intros [[-> ->]|[_ []]]. auto.
  - apply NoDup_cons in Hnd as [Hp0 Hnd]. rewrite list_elem_of_In in Hp0.
    destruct (String.eqb_spec p p0) as [->|Hne]; simpl.
    + split.
      * intros [[= <- <-]|Hin]; [auto|]. right. split; [|auto].
        intros ->. apply Hp0. apply in_map_iff. now exists (p0, ds').
      * intros [[-> ->]|[Hne [[= <- <-]|Hin]]]; auto. congruence.
    + rewrite (IH Hnd). split.
      * intros [[= <- <-]|[[-> ->]|[Hn Hin]]]; auto.
      * intros [[-> ->]|[Hn [[= <- <-]|Hin]]]; auto.
Qed.

(** X18. Adding a rule under a pattern that has one replaces it: the
    destinations of a topic are then those given for the pattern, when
    it matches, and those of the other rules as before; the old
    destinations of the pattern are gone. The patterns stay distinct,
    and the log, the counters and the services are not touched. *)
Theorem add_rule_replaces (pattern : string) (dests : list string)
    (eng : engine) (topic d : string) :
  NoDup (map fst (rules eng)) ->
  (d ∈ _find_destinations (rules (add_rule pattern dests eng)) topic <->
   (Spec.pattern_matches topic pattern /\ In d dests) \/
   (exists p' ds',
      p' <> pattern /\ In (p', ds') (rules eng) /\
      Spec.pattern_matches topic p' /\ In d ds')) /\
  NoDup (map fst (rules (add_rule pattern dests eng))) /\
  message_log (add_rule pattern dests eng) = message_log eng /\
  router_stats (add_rule pattern dests eng) = router_stats eng.
Proof.
  intros Hnd. cbn [add_rule rules message_log router_stats].
  split; [|split; [|split; reflexivity]].
  - unfold _find_destinations. rewrite fold_destinations. split.
    + intros [H|(p & ds & Hin & Hm & Hd)]; [set_solver|].
      apply matches_pattern_iff in Hm.
      apply In_set_rule in Hin as [[-> ->]|[Hne Hin]]; eauto 8.
    + intros [[Hm Hd]|(p & ds & Hne & Hin & Hm & Hd)]; right.
      * exists pattern, dests. rewrite matches_pattern_iff.
        split; [|auto]. apply In_set_rule; auto.
      * exists p, ds. rewrite matches_pattern_iff.
        split; [|auto]. apply In_set_rule; auto.
  - clear topic d. induction (rules eng) as [|[p0 d0] rules IH]; simpl.
    + apply NoDup_singleton.
    + apply NoDup_cons in Hnd as [Hp0 Hnd'].
      destruct (String.eqb_spec pattern p0) as [->|Hne]; simpl.
      * apply NoDup_cons. auto.
      * apply NoDup_cons. split; [|auto].
        rewrite list_elem_of_In in *. rewrite set_rule_keys.
        intros [->|H]; auto.
Qed.

Lemma default_rules_distinct : NoDup (map fst ROUTING_RULES).
Proof. apply (bool_decide_unpack _). vm_compute. reflexivity. Qed.

Lemma add_rule_replaces_witness :
  ~ "ehr" ∈ _find_destinations
              (rules (add_rule "lis.diagnosticreport.completed" ["billing"]
                        Sample.idle))
              "lis.diagnosticreport.completed".
Proof.
  intros Hd.
  apply (proj1 (add_rule_replaces "lis.diagnosticreport.completed"
                  ["billing"] Sample.idle "lis.diagnosticreport.completed"
                  "ehr" default_rules_distinct)) in Hd.
  destruct Hd as [[_ [Hd|[]]]|(p & ds & Hne & Hin & Hm & _)];
    [discriminate Hd|].
  decide_rules Hin Hm.
Defined.

(** X19. [GET /messages] gives, for a positive limit, the newest
    entries of the log, as many as the limit or all when there are
    fewer, in the order of arrival; for the limit 0 it gives the whole
    log, not none; for a negative limit it leaves out that many of the
    oldest. The total is the length of the whole log throughout. *)
Theorem recent_messages (limit : Z) (eng : engine) :
  let log := message_log eng in
  let report := RouterApp.get_messages limit eng in
  RouterApp.total report = Z.of_nat (length log) /\
  ((0 < limit)%Z ->
   RouterApp.messages report = drop (length log - Z.to_nat limit) log /\
   length (RouterApp.messages report) = Nat.min (Z.to_nat limit) (length log)) /\
  (limit = 0%Z -> RouterApp.messages report = log) /\
  ((limit < 0)%Z ->
   RouterApp.messages report = drop (Z.to_nat (- limit)) log).
Proof.
  cbv zeta. unfold RouterApp.get_messages, PyIter.slice_from.
  cbn [RouterApp.total RouterApp.messages].
  split; [reflexivity|]. split; [|split].
  - intros Hpos. destruct (Z.ltb_spec (- limit) 0) as [_|H]; [|lia].
    replace (Z.to_nat (Z.of_nat (length (message_log eng)) + - limit))
      with (length (message_log eng) - Z.to_nat limit) by lia.
    split; [reflexivity|]. rewrite length_drop. lia.
  - intros ->. reflexivity.
  - intros Hneg. destruct (Z.ltb_spec (- limit) 0) as [H|_]; [lia|].
    reflexivity.
Qed.

Lemma recent_messages_witness :
  length (RouterApp.messages (RouterApp.get_messages 2 (Sample.fed 3))) = 2
  /\ length (RouterApp.messages (RouterApp.get_messages 0 (Sample.fed 3))) = 3.
Proof.
  destruct (recent_messages 2 (Sample.fed 3)) as (_ & Hpos & _).
  destruct (recent_messages 0 (Sample.fed 3)) as (_ & _ & Hzero & _).
  split.
  - rewrite (proj2 (Hpos ltac:(lia))). reflexivity.
  - rewrite (Hzero eq_refl). reflexivity.
Defined.

Lemma has_id_iff (mid : string) (entry : log_entry) :
  RouterApp.has_id mid entry = true <-> entry_id entry = JStr mid.
Proof.
  unfold RouterApp.has_id. destruct (entry_id entry); split;
    try discriminate.
  - intros H. apply String.eqb_eq in H. now subst.
  - intros [= ->]. apply String.eqb_refl.
Qed.

(** X20. A message that was just processed can be fetched by its id:
    [GET /messages/{id}] answers with an entry of that id, the oldest
    the log still has; an id that no entry of the log carries gets the
    404. *)
Theorem logged_message_is_found
    (print_forward : string -> json -> option string)
    (now : string) (rk : json) (msg : dict) (mid : string) (eng : engine) :
  (dict_get "id" msg = Some (JStr mid) ->
   exists entry older newer,
     RouterApp.get_message mid
       (fst (Router.process_message print_forward now rk (JObj msg) eng))
       = Ok entry /\
     entry_id entry = JStr mid /\
     message_log
       (fst (Router.process_message print_forward now rk (JObj msg) eng))
       = older ++ entry :: newer /\
     forall e, In e older -> entry_id e <> JStr mid) /\
  ((forall e, In e (message_log eng) -> entry_id e <> JStr mid) ->
   RouterApp.get_message mid eng
     = Raise (HTTPException 404 "Message not found")).
Proof.
  split.
  - intros Hid.
    destruct (process_message_shape print_forward now rk msg eng)
      as (dests & st & err & routed & errs & Heng & _).
    unfold RouterApp.get_message. rewrite Heng. cbn [message_log].
    set (entry := mk_entry _ _ _ _ _ _ _ _).
    set (log := drop _ (message_log eng)).
    assert (RouterApp.has_id mid entry = true) as Hnew.
    { apply has_id_iff. unfold entry. cbn [entry_id].
      unfold dict_get_value. now rewrite Hid. }
    clearbody entry log. clear Heng.
    induction log as [|x log IH]; simpl.
    + rewrite Hnew. exists entry, [], []. repeat split; auto.
      apply has_id_iff, Hnew.
    + destruct (RouterApp.has_id mid x) eqn:Hx.
      * exists x, [], (log ++ [entry]). repeat split; auto.
        apply has_id_iff, Hx.
      * destruct IH as (e & older & newer & Hf & He & Hl & Hold).
        destruct (List.find (RouterApp.has_id mid) (log ++ [entry]))
          as [e'|]; [|discriminate]. injection Hf as ->.
        exists e, (x :: older), newer. split; [reflexivity|].
        split; [exact He|]. split; [simpl; now rewrite Hl|].
        intros e0 [<-|Hin]; [|now apply Hold].
        intros Heq. apply has_id_iff in Heq. congruence.
  - intros Hnone. unfold RouterApp.get_message.
    destruct (List.find (RouterApp.has_id mid) (message_log eng))
      as [e|] eqn:Hf; [|reflexivity].
    apply find_some in Hf as [Hin He]. apply has_id_iff in He.
    now apply Hnone in Hin.
Qed.

Lemma logged_message_is_found_witness :
  exists entry,
    RouterApp.get_message "evt-1"
      (fst (Router.process_message Sample.console "2024-01-01T09:00:02"
              (JStr "pas.encounter.adt.a01") (JObj Sample.admission)
              Sample.idle)) = Ok entry /\
    entry_id entry = JStr "evt-1".
Proof.
  destruct (proj1 (logged_message_is_found Sample.console
                     "2024-01-01T09:00:02" (JStr "pas.encounter.adt.a01")
                     Sample.admission "evt-1" Sample.idle) eq_refl)
    as (entry & _ & _ & Hg & He & _).
  exists entry. split; [exact Hg|exact He].
Defined.

(* ================================================================== *)
(** * Seed loading *)
(* ================================================================== *)

Section SeedFacts.

Variable adapt_value : json -> option string.
Variable svc : service.

Abbreviation load_entries := (Seed.load_entries adapt_value svc).
Abbreviation _seed_data := (Seed._seed_data adapt_value svc).
Abbreviation create := (create_resource adapt_value svc).

Lemma supported_Some (v : json) (rt : string) :
  Seed.supported svc v = Some rt ->
  v = JStr rt /\ str_in rt (supported_resources svc) = true.
Proof.
  unfold Seed.supported. destruct v; try discriminate.
  destruct (str_in s (supported_resources svc)) eqn:E; [|discriminate].
  now intros [= <-].
Qed.

(** A create only ever adds a row at the end. *)
Lemma create_appends env rtype d (tbl : table) :
  exists added,
    fst (create env rtype d tbl) = tbl ++ added /\
    length added <= 1 /\
    Forall (fun r => str_in (resource_type r) (supported_resources svc) = true
                     /\ version_id r = "1") added.
Proof.
  unfold create_resource.
  destruct (str_in rtype (supported_resources svc)) eqn:Hsup; simpl negb;
    cbv iota.
  - destruct (bind_varchar _ _) as [key|].
    + destruct (existsb _ tbl).
      * exists []. rewrite app_nil_r. simpl. auto.
      * eexists [_]. split; [reflexivity|]. split; [simpl; lia|].
        repeat constructor. exact Hsup.
    + exists []. rewrite app_nil_r. simpl. auto.
  - exists []. rewrite app_nil_r. simpl. auto.
Qed.

Lemma load_entries_appends envs n entries (tbl : table) :
  exists added,
    load_entries envs n entries tbl = tbl ++ added /\
    length added <= length entries /\
    Forall (fun r => str_in (resource_type r) (supported_resources svc) = true
                     /\ version_id r = "1") added.
Proof.
  revert n tbl. induction entries as [|entry rest IH]; intros n tbl.
  - exists []. rewrite app_nil_r. simpl. auto.
  - assert (exists added, tbl = tbl ++ added /\
              length added <= length (entry :: rest) /\
              Forall (fun r => str_in (resource_type r)
                                 (supported_resources svc) = true
                               /\ version_id r = "1") added) as Hstop.
    { exists []. rewrite app_nil_r. simpl. split; auto. split; [lia|auto]. }
    destruct entry as [| | | | |fields]; try exact Hstop.
    cbn [Seed.load_entries].
    destruct (PyIter.dict_get_default "resource" (JObj []) fields)
      as [| | | | |resource]; try exact Hstop.
    destruct (Seed.supported svc _) as [rt|].
    + destruct (create_appends (envs n) rt resource tbl)
        as (a1 & -> & Hl1 & Hf1).
      destruct (IH (S n) (tbl ++ a1)) as (a2 & -> & Hl2 & Hf2).
      exists (a1 ++ a2). rewrite app_assoc. split; [reflexivity|].
      split; [rewrite length_app; simpl; lia|].
      apply Forall_app. auto.
    + destruct (IH (S n) tbl) as (a2 & -> & Hl2 & Hf2).
      exists a2. split; [reflexivity|]. split; [simpl; lia|auto].
Qed.

(** A create under a supported type with a string id that the key
    column takes leaves that id in the table; it changes nothing when
    the id was there, or is too long for the column. *)
Lemma create_string_id env rtype (resource : dict) (s : string)
    (tbl : table) :
  str_in rtype (supported_resources svc) = true ->
  dict_get "id" resource = Some (JStr s) -> s <> "" ->
  (fits_varchar s = true ->
   In s (map id (fst (create env rtype resource tbl)))) /\
  (fits_varchar s = false \/ In s (map id tbl) ->
   fst (create env rtype resource tbl) = tbl).
Proof.
  intros Hsup Hid Hne. unfold create_resource.
  rewrite Hsup, Hid. simpl negb. cbv iota.
  assert (truthy (JStr s) = true) as ->.
  { simpl. apply negb_true_iff, String.eqb_neq, Hne. }
  cbn [bind_varchar].
  destruct (fits_varchar s); [|split; [discriminate|reflexivity]].
  destruct (existsb (fun r => String.eqb (id r) s) tbl) eqn:E.
  - apply existsb_id_In in E. auto.
  - cbn [fst]. split.
    + intros _. rewrite map_app. apply in_or_app. right. simpl. auto.
    + intros [Hlong|Hin]; [discriminate|].
      apply existsb_id_In in Hin. congruence.
Qed.

Lemma load_entries_again envs envs' n n' entries (tbl T : table) :
  Forall Seed.carries_id entries ->
  (forall k, In k (map id (load_entries envs n entries tbl)) ->
             In k (map id T)) ->
  load_entries envs' n' entries T = T.
Proof.
  revert n n' tbl. induction entries as [|entry rest IH];
    intros n n' tbl Hids Hsub; [reflexivity|].
  apply Forall_cons in Hids as [Hid Hids].
  destruct entry as [| | | | |fields]; try reflexivity.
  cbn [Seed.load_entries] in *.
  unfold PyIter.dict_get_default in *.
  destruct (dict_get "resource" fields) as [res|] eqn:Hres.
  - destruct res as [| | | | |resource]; try reflexivity.
    destruct (Seed.supported svc (dict_get_value "resourceType" resource))
      as [rt|] eqn:Hsup.
    + apply supported_Some in Hsup as [_ Hsup].
      destruct (Hid fields resource eq_refl Hres) as (s & Hs & Hne).
      destruct (create_string_id (envs n) rt resource s tbl Hsup Hs Hne)
        as [Hin _].
      destruct (create_string_id (envs' n') rt resource s T Hsup Hs Hne)
        as [_ Hsame].
      destruct (fits_varchar s) eqn:Hfits.
      * destruct (load_entries_appends envs (S n) rest
                    (fst (create (envs n) rt resource tbl)))
          as (added & Hadd & _).
        assert (In s (map id T)) as HinT.
        { apply Hsub. rewrite Hadd, map_app. apply in_or_app. left. auto. }
        rewrite (Hsame (or_intror HinT)). eapply IH; eauto.
      * rewrite (Hsame (or_introl eq_refl)). eapply IH; eauto.
    + eapply IH; eauto.
  - cbn [dict_get_value dict_get Seed.supported] in *. eapply IH; eauto.
Qed.

(** X22. Loading a seed file a second time adds nothing, when every
    resource in it carries its id as a non-empty string: whatever the
    first load stored or skipped, the second finds every id taken. *)
Theorem seeding_twice_adds_nothing (envs envs' : nat -> store_env)
    (seed_file : option json) (tbl : table) :
  Forall Seed.carries_id (Seed.entries_of seed_file) ->
  _seed_data envs' seed_file (_seed_data envs seed_file tbl)
  = _seed_data envs seed_file tbl.
Proof.
  unfold Seed._seed_data, Seed.entries_of.
  destruct seed_file as [[| | | | |seed_data]|]; try reflexivity.
  destruct (PyIter.iterate _) as [entries|e]; [|reflexivity].
  intros Hids. eapply load_entries_again; eauto.
Qed.

(** X23. Loading a seed file only adds rows, at most one for each
    entry, each of a supported type and at version ["1"]; what could
    be read before the load reads the same after it. *)
Theorem seeding_keeps_existing (envs : nat -> store_env)
    (seed_file : option json) (tbl : table) :
  exists added,
    _seed_data envs seed_file tbl = tbl ++ added /\
    length added <= length (Seed.entries_of seed_file) /\
    Forall (fun r => str_in (resource_type r) (supported_resources svc) = true
                     /\ version_id r = "1") added /\
    forall rtype rid doc,
      read_resource rtype rid tbl = Ok doc ->
      read_resource rtype rid (_seed_data envs seed_file tbl) = Ok doc.
Proof.
  assert (exists added,
            _seed_data envs seed_file tbl = tbl ++ added /\
            length added <= length (Seed.entries_of seed_file) /\
            Forall (fun r => str_in (resource_type r)
                               (supported_resources svc) = true
                             /\ version_id r = "1") added)
    as (added & Heq & Hlen & Hall).
  { unfold Seed._seed_data, Seed.entries_of.
    assert (exists added : table, tbl = tbl ++ added /\
              length added <= 0 /\
              Forall (fun r => str_in (resource_type r)
                                 (supported_resources svc) = true
                               /\ version_id r = "1") added) as Hnone.
    { exists []. rewrite app_nil_r. simpl. auto. }
    destruct seed_file as [[| | | | |seed_data]|]; try exact Hnone.
    destruct (PyIter.iterate _) as [entries|e]; [|exact Hnone].
    apply load_entries_appends. }
  exists added. repeat split; auto.
  intros rtype rid doc. rewrite Heq. unfold read_resource, first_row.
  destruct (List.find (is_resource rtype rid) tbl) as [x|] eqn:Hx;
    [|discriminate].
  now rewrite (find_app_Some _ _ _ _ Hx).
Qed.

End SeedFacts.

Lemma seeding_twice_adds_nothing_witness :
  Seed._seed_data Sample.strings_only Ehr.service Fixtures.clocks
    (Some Fixtures.seed)
    (Seed._seed_data Sample.strings_only Ehr.service Fixtures.clocks
       (Some Fixtures.seed) [])
  = Seed._seed_data Sample.strings_only Ehr.service Fixtures.clocks
      (Some Fixtures.seed) [].
Proof.
  apply seeding_twice_adds_nothing.
  repeat constructor; intros fields resource [= <-] [= <-];
    eexists; (split; [reflexivity|discriminate]).
Defined.

(** The sample seed stores the patient and the observation and passes
    over the invoice, which the record system does not support. *)
Lemma sample_seed_loads_two :
  map (fun r => (resource_type r, id r))
    (Seed._seed_data Sample.strings_only Ehr.service Fixtures.clocks
       (Some Fixtures.seed) [])
  = [("Patient", "pat-7"); ("Observation", "obs-1")].
Proof. reflexivity. Qed.

(* ================================================================== *)
(** * The callers of the store *)
(* ================================================================== *)

Lemma In_take {A : Type} (n : nat) (l : list A) (x : A) :
  In x (take n l) -> In x l.
Proof.
  revert l. induction n as [|n IH]; intros [|y l]; simpl; try tauto.
  intros [->|H]; auto.
Qed.

Section Callers.

Variable container_text : json -> string.

(** What a search by patient with the default page gives. *)
Lemma search_by_patient (pid rtype : string) (tbl : table) :
  Ehr.related_entries container_text pid tbl rtype
  = map (bundle_entry rtype)
      (take 100 (build_query container_text rtype
                   [("patient", Some pid)] tbl)).
Proof. reflexivity. Qed.

Lemma build_query_patient (pid rtype : string) (tbl : table) (r : row) :
  In r (build_query container_text rtype [("patient", Some pid)] tbl) ->
  In r tbl /\ resource_type r = rtype /\
  Spec.reference_text container_text (data r)
    = Some ("Patient/" ++ pid)%string.
Proof.
  rewrite build_query_selects. intros Hin.
  apply filter_In in Hin as [Hin Hsel]. split; [exact Hin|].
  apply selects_iff in Hsel as [Ht Hsat]. split; [exact Ht|].
  specialize (Hsat "patient" pid (or_introl eq_refl)
                ltac:(unfold Spec.recognized; simpl; auto)).
  now inversion Hsat.
Qed.

(** X24. [$everything] never raises. Its bundle holds the patient, when
    there is one under the id, and for each of the five related types
    the first 100 stored resources whose subject reference is exactly
    [Patient/<id>], so 501 entries at most; a resource that names the
    patient elsewhere is not in it. The total is the number of entries
    in the bundle. *)
Theorem everything_is_by_subject (pid : string) (tbl : table) :
  exists entries,
    Ehr.patient_everything container_text pid tbl
    = [("resourceType", JStr "Bundle");
       ("type", JStr "searchset");
       ("entry", JArr entries);
       ("total", JNum (Z.of_nat (length entries)))] /\
    length entries <= 501 /\
    forall e, In e entries ->
      (exists patient,
         read_resource "Patient" pid tbl = Ok patient /\
         e = JObj [("resource", JObj patient)]) \/
      (exists r,
         In r tbl /\ In (resource_type r) Ehr.related_types /\
         Spec.reference_text container_text (data r)
           = Some ("Patient/" ++ pid)%string /\
         e = bundle_entry (resource_type r) r).
Proof.
  unfold Ehr.patient_everything. eexists. split; [reflexivity|].
  cbn [fold_left Ehr.related_types]. rewrite !search_by_patient.
  split.
  - rewrite !length_app, !length_map, !length_take.
    destruct (read_resource "Patient" pid tbl); cbn [length]; lia.
  - intros e Hin.
    repeat (apply in_app_or in Hin as [Hin|Hin]);
      try (right; apply in_map_iff in Hin as (r & <- & Hr);
           apply In_take, build_query_patient in Hr as (Hr & Ht & Href);
           exists r; rewrite Ht; split; [exact Hr|];
           split; [simpl; tauto|]; split; [exact Href|reflexivity]).
    left. destruct (read_resource "Patient" pid tbl) as [patient|];
      [|destruct Hin].
    destruct Hin as [<-|[]]. eauto.
Qed.

(** X25. The census does not look at the location it is asked for: the
    parameter goes into the search under a name the query engine does
    not know, so the answer for any location is the answer for none. *)
Theorem census_ignores_location (location : string) (tbl : table) :
  Pas.get_census container_text (Some location) tbl
  = Pas.get_census container_text None tbl.
Proof.
  unfold Pas.get_census. destruct (String.eqb location ""); [reflexivity|].
  assert (search_resources container_text "Encounter"
            ([("status", Some "in-progress")] ++ [("location", Some location)])
            100 0 tbl
          = search_resources container_text "Encounter"
              [("status", Some "in-progress")] 100 0 tbl) as ->;
    [|reflexivity].
  unfold search_resources, build_query. cbn [app fold_left].
  rewrite (unrecognized_ignored container_text "location"); [reflexivity|].
  right. unfold Spec.recognized. simpl. intros H.
  repeat destruct H as [H|H]; discriminate || assumption.
Qed.

Lemma get_census_entries (tbl : table) :
  Pas.get_census container_text None tbl
  = let entries :=
      map (bundle_entry "Encounter")
        (take 100 (build_query container_text "Encounter"
                     [("status", Some "in-progress")] tbl)) in
    match Pas.for_each Pas.count_encounter entries [] with
    | Raise e => Raise e
    | Ok census =>
        Ok (Pas.mk_census_report census (Z.of_nat (length entries)))
    end.
Proof. reflexivity. Qed.

(** X26. The total of the census is the number of encounters whose
    status is [in-progress], and 100 when there are more: the search
    behind it is made with the default page. *)
Theorem census_total_is_capped (location : option string) (tbl : table)
    (report : Pas.census_report) :
  Pas.get_census container_text location tbl = Ok report ->
  exists sel : row -> bool,
    (forall r,
       sel r = true <->
       resource_type r = "Encounter" /\
       Spec.status_text container_text (data r) = Some "in-progress") /\
    Pas.total report
      = Z.of_nat (Nat.min 100 (length (List.filter sel tbl))).
Proof.
  intros Hrun.
  assert (Pas.get_census container_text None tbl = Ok report) as Hnone.
  { destruct location as [l|]; [|exact Hrun].
    now rewrite <- (census_ignores_location l). }
  clear Hrun. rewrite get_census_entries in Hnone. cbv zeta in Hnone.
  exists (Spec.selects container_text "Encounter"
            [("status", Some "in-progress")]).
  split.
  - intros r. rewrite selects_iff. unfold Spec.selected. split.
    + intros [Ht Hsat]. split; [exact Ht|].
      specialize (Hsat "status" "in-progress" (or_introl eq_refl)
                    ltac:(unfold Spec.recognized; simpl; auto)).
      now inversion Hsat.
    + intros [Ht Hs]. split; [exact Ht|].
      intros key value [[= <- <-]|[]] _. now apply Spec.sat_status.
  - destruct (Pas.for_each Pas.count_encounter _ _) as [census|e];
      [|discriminate].
    injection Hnone as <-. cbn [Pas.total].
    rewrite length_map, build_query_selects, length_take. reflexivity.
Qed.

End Callers.

Lemma census_total_is_capped_witness :
  exists report,
    Pas.get_census Sample.no_text (Some "Location/loc-icu")
      Fixtures.two_wards = Ok report /\
    exists sel : row -> bool,
      Pas.total report
      = Z.of_nat (Nat.min 100 (length (List.filter sel Fixtures.two_wards))).
Proof.
  destruct (Pas.get_census Sample.no_text (Some "Location/loc-icu")
              Fixtures.two_wards) as [report|e] eqn:Hrun;
    [|vm_compute in Hrun; discriminate].
  exists report. split; [reflexivity|].
  destruct (census_total_is_capped Sample.no_text _ _ _ Hrun)
    as (sel & _ & Htotal).
  exists sel. exact Htotal.
Defined.

(** Asked for the intensive care unit, the census counts the emergency
    room as well. *)
Lemma census_of_two_wards :
  Pas.get_census Sample.no_text (Some "Location/loc-icu") Fixtures.two_wards
  = Ok (Pas.mk_census_report
          [(JStr "Location/loc-er", 1%Z); (JStr "Location/loc-icu", 1%Z)]
          2).
Proof. reflexivity. Qed.

Lemma accepted_write_publishes_one_event_witness :
  exists doc event,
    FhirApp.create_resource Sample.strings_only Sample.no_text Sample.ehr
      Sample.monday Sample.event_stamp "Patient" (JObj Sample.ann)
      Fixtures.working_broker
    = (FhirApp.mk_app Sample.one_patient
         (Some (mk_channel true [("ehr.patient.created", event)])),
       Ok (FhirApp.mk_response 201 (JObj doc))) /\
    dict_get "data" event = Some (JObj doc).
Proof.
  destruct (accepted_write_publishes_one_event Sample.strings_only
              Sample.no_text Sample.ehr Sample.monday Sample.event_stamp
              "Patient" Sample.ann_id Sample.ann [] (mk_channel true [])
              eq_refl) as (Hpost & _).
  eexists _, _. split; [apply Hpost; reflexivity|reflexivity].
Defined.



Lemma create_keeps_existing_witness :
  read_resource "Patient" Sample.ann_id
    (fst (create_resource Sample.strings_only Sample.ehr Sample.tuesday
            "Observation" Sample.hemoglobin Sample.one_patient))
  = read_resource "Patient" Sample.ann_id Sample.one_patient.
Proof.
  destruct (read_resource "Patient" Sample.ann_id Sample.one_patient)
    as [doc|e] eqn:Hread; [|vm_compute in Hread; discriminate].
  exact (proj1 (create_keeps_existing Sample.strings_only Sample.ehr
                  Sample.tuesday "Observation" Sample.hemoglobin
                  Sample.one_patient) "Patient" Sample.ann_id doc Hread).
Defined.

Lemma update_keeps_others_witness :
  read_resource "Encounter" "enc-1"
    (fst (update_resource Sample.tuesday "Encounter" "enc-2"
            Sample.gender_only Fixtures.two_wards))
  = read_resource "Encounter" "enc-1" Fixtures.two_wards.
Proof.
  refine (proj1 (update_keeps_others Sample.tuesday "Encounter" "enc-2"
                   Sample.gender_only Fixtures.two_wards)
            "Encounter" "enc-1" _).
  discriminate.
Defined.

Lemma seeding_keeps_existing_witness :
  read_resource "Patient" Sample.ann_id
    (Seed._seed_data Sample.strings_only Sample.ehr Fixtures.clocks
       (Some Fixtures.seed) Sample.one_patient)
  = read_resource "Patient" Sample.ann_id Sample.one_patient.
Proof.
  destruct (seeding_keeps_existing Sample.strings_only Sample.ehr
              Fixtures.clocks (Some Fixtures.seed) Sample.one_patient)
    as (added & _ & _ & _ & Hread).
  destruct (read_resource "Patient" Sample.ann_id Sample.one_patient)
    as [doc|e] eqn:Hbefore; [|vm_compute in Hbefore; discriminate].
  exact (Hread "Patient" Sample.ann_id doc Hbefore).
Defined.

Lemma everything_is_by_subject_witness :
  exists entries,
    dict_get "entry"
      (Ehr.patient_everything Sample.no_text "7" Sample.one_observation)
    = Some (JArr entries) /\
    length entries <= 501.
Proof.
  destruct (everything_is_by_subject Sample.no_text "7"
              Sample.one_observation) as (entries & Hb & Hlen & _).
  exists entries. rewrite Hb. split; [reflexivity|exact Hlen].
Defined.

(** The observation of patient 7 is the one entry of [$everything] for
    the id 7 in a table that has no such patient. *)
Lemma everything_of_patient_7 :
  dict_get "total"
    (Ehr.patient_everything Sample.no_text "7" Sample.one_observation)
  = Some (JNum 1).
Proof. reflexivity. Qed.

(** The entry a call logs, with the way the try block ended. *)
Lemma process_message_entry
    (print_forward : string -> json -> option string)
    (now : string) (rk : json) (msg : dict) (eng : engine) :
  exists dests st err,
    last (message_log
            (fst (Router.process_message print_forward now rk (JObj msg) eng)))
    = Some (mk_entry (now ++ "Z") rk (dict_get_value "type" msg)
              (dict_get_value "source" msg) (dict_get_value "id" msg)
              dests st err) /\
    (forall e, find_destinations (rules eng) rk = Raise e ->
               st = error /\ err = Some (exn_text e)) /\
    snd (Router.process_message print_forward now rk (JObj msg) eng)
    = match redis_client eng with
      | Some r =>
          if redis_reachable r then Ok tt
          else Raise (RedisError "connection refused")
      | None => Ok tt
      end.
Proof.
  unfold Router.process_message.
  destruct (find_destinations (rules eng) rk) as [dests|e].
  - destruct (Router.forward_each print_forward (services eng) dests msg
                (messages_routed (router_stats eng))) as [routed [u|e]];
      cbv zeta; rewrite keep_last_1000;
      eexists _, _, _;
      (destruct (redis_client eng) as [r|]; [destruct (redis_reachable r)|];
       cbn [fst snd message_log]; rewrite last_snoc;
       (split; [reflexivity|]); (split; [discriminate|reflexivity])).
  - cbv zeta; rewrite keep_last_1000. eexists _, _, _.
    destruct (redis_client eng) as [r|]; [destruct (redis_reachable r)|];
      cbn [fst snd message_log]; rewrite last_snoc;
      (split; [reflexivity|]);
      (split; [now intros e' [= <-]|reflexivity]).
Qed.

(** X27. [POST /route] returns normally whatever became of the routing,
    when Redis is absent or in reach: a body without [routing_key] is
    logged under [manual.test.message], and a body whose [routing_key]
    is not a string is logged with status [error] while rules exist,
    the call still returning. *)
Theorem manual_route_reports_success
    (print_forward : string -> json -> option string)
    (now : string) (message : dict) (eng : engine) :
  (forall r, redis_client eng = Some r -> redis_reachable r = true) ->
  let run := Router.manual_route print_forward now message eng in
  snd run = Ok tt /\
  exists entry,
    last (message_log (fst run)) = Some entry /\
    (dict_get "routing_key" message = None ->
     Router.routing_key entry = JStr "manual.test.message") /\
    (forall v, dict_get "routing_key" message = Some v ->
       Router.routing_key entry = v /\
       ((forall s, v <> JStr s) -> rules eng <> [] ->
        entry_status entry = error /\
        entry_error entry
          = Some ("'" ++ type_name v
                  ++ "' object has no attribute 'split'")%string)).
Proof.
  intros Hredis. cbv zeta. unfold Router.manual_route.
  set (rk := match dict_get "routing_key" message with
             | Some v => v
             | None => JStr "manual.test.message"
             end).
  destruct (process_message_entry print_forward now rk message eng)
    as (dests & st & err & Hlast & Hfail & Hout).
  split.
  - rewrite Hout. destruct (redis_client eng) as [r|]; [|reflexivity].
    now rewrite (Hredis r eq_refl).
  - eexists. split; [exact Hlast|]. cbn [Router.routing_key entry_status
                                         entry_error].
    unfold rk in *. split.
    + now intros ->.
    + intros v Hv. rewrite Hv in *. split; [reflexivity|].
      intros Hnot Hrules.
      apply (Hfail (AttributeError
                      ("'" ++ type_name v
                       ++ "' object has no attribute 'split'")%string)).
      destruct v; try (now destruct (rules eng)); now destruct (Hnot s).
Qed.

Lemma manual_route_reports_success_witness :
  snd (Router.manual_route Sample.console "2024-01-01T09:00:02"
         [("routing_key", JNum 5); ("id", JStr "evt-9")] Sample.idle)
  = Ok tt.
Proof.
  refine (proj1 (manual_route_reports_success Sample.console
                   "2024-01-01T09:00:02"
                   [("routing_key", JNum 5); ("id", JStr "evt-9")]
                   Sample.idle _)).
  intros r Hr. discriminate Hr.
Defined.
